(** * CUATRO: the configuration facade and the trust-region loop

    A shallow embedding of [CUATRO/optimizer/CUATRO_optimizer_use.py]
    (class [CUATRO]: [__init__] and [run_optimiser]) together with a model
    of the trust-region loop that the dispatcher calls into.

    Python objects are modelled by the types their annotations give them:
    strings as [string], [Optional[str]] as [option string], a [dict] as a
    [gmap], numeric hyperparameters as rationals (the facade performs no
    arithmetic on them), counts as [Z] or [nat].  Exceptions are explicit:
    every fallible function returns an [outcome]. *)

From Stdlib Require Import ZArith QArith Lia List.
From stdpp Require Import gmap strings.
Import ListNotations.

Local Open Scope string_scope.
Local Open Scope list_scope.

(** ** Python values and exceptions *)

Inductive exn : Type :=
| ValueError (msg : string)
| KeyError (key : string)
| UnboundLocalError (name : string)
| SolveError.

Inductive outcome (A : Type) : Type :=
| Return (a : A)
| Raise (e : exn).

Arguments Return {A} a.
Arguments Raise {A} e.

Definition bind {A B : Type} (m : outcome A) (k : A -> outcome B) : outcome B :=
  match m with
  | Return a => k a
  | Raise e => Raise e
  end.

Notation "x <- m ;; k" := (bind m (fun x => k))
  (at level 100, m at next level, right associativity).

Definition is_Return {A : Type} (m : outcome A) : bool :=
  match m with Return _ => true | Raise _ => false end.

(** Values a configuration dictionary may hold. *)
Inductive pyval : Type :=
| PyNone
| PyBool (b : bool)
| PyInt (z : Z)
| PyStr (s : string).

(** [v == 'lit'] for a string literal. *)
Definition py_eq_str (v : pyval) (lit : string) : bool :=
  match v with
  | PyStr s => bool_decide (s = lit)
  | _ => false
  end.

(** [x in [y1, ..., yn]]. *)
Definition py_in {A : Type} `{EqDecision A} (x : A) (l : list A) : bool :=
  existsb (fun y => bool_decide (x = y)) l.

(** [d[key]]: a missing key raises [KeyError]. *)
Definition subscript (d : gmap string pyval) (key : string) : outcome pyval :=
  match d !! key with
  | Some v => Return v
  | None => Raise (KeyError key)
  end.

(** Truth value of an [Optional[dict]]: [None] and the empty dict are false. *)
Definition dict_truthy (d : option (gmap string pyval)) : bool :=
  match d with
  | Some m => negb (bool_decide (m = ∅))
  | None => false
  end.

(** Truth value of an [Optional[list]]: [None] and the empty list are false. *)
Definition list_truthy {A : Type} (l : option (list A)) : bool :=
  match l with
  | Some (_ :: _) => true
  | _ => false
  end.

(** ** Data exchanged with the [optimise] entrypoint *)

Definition Point : Type := list Q.

(** What evaluating the simulator or a constraint gives: a finite number, or
    nothing usable (the call raised or returned a non-finite value). *)
Inductive fval : Type :=
| Finite (q : Q)
| NonFinite.

Definition Bounds : Type := list (Q * Q).

(** [prior_evals]: [{'X_samples_list', 'f_eval_list', 'g_eval_list',
    'bounds', 'x0_method'}]. *)
Record PriorEvals : Type := {
  X_samples_list : list Point;
  f_eval_list : list fval;
  g_eval_list : list (list fval);
  prior_bounds : Bounds;
  x0_method : string
}.

(** The default of [run_optimiser]'s [prior_evals] argument. *)
Definition default_prior_evals : PriorEvals :=
  {| X_samples_list := []; f_eval_list := []; g_eval_list := [];
     prior_bounds := []; x0_method := "best eval" |}.

(** Arguments of [run_optimiser] and of every variant's [optimise]. *)
Record run_args : Type := {
  sim : Point -> fval;
  constraints : option (list (Point -> fval));
  bounds : option Bounds;
  max_f_eval : nat;
  rnd : Z;
  prior_evals : PriorEvals
}.

(** [output_dict], with the keys the class docstring lists. *)
Record output_dict : Type := {
  out_x : Point;
  out_f : fval;
  out_f_evals : nat;
  out_f_store : list fval;
  out_x_store : list Point;
  out_g_store : list (list fval);
  out_g_viol : fval
}.

(** The variant classes [run_optimiser] imports. *)
Inductive variant : Type :=
| CUATRO_g
| CUATRO_base
| CUATRO_feas_samp
| CUATRO_expl_expl
| CUATRO_sampling_region
| CUATRO_TIS
| CUATRO_TIP.

(** ** The class [CUATRO] *)

(** Keyword arguments of [CUATRO.__init__]. *)
Record kwargs : Type := {
  arg_x0 : Point;
  arg_init_radius : Q;
  arg_max_iter : Z;
  arg_tolerance : Q;
  arg_beta_inc : Q;
  arg_beta_red : Q;
  arg_eta1 : Q;
  arg_eta2 : Q;
  arg_method : string;
  arg_N_min_samples : Z;
  arg_print_status : bool;
  arg_constr_handling : string;
  arg_sampling : string;
  arg_explore : option string;
  arg_sampling_trust_ratio : list Q;
  arg_min_radius : Q;
  arg_min_restart_radius : Q;
  arg_conv_radius : Q;
  arg_no_x0 : Z;
  arg_rescale_radius : bool;
  arg_solver_to_use : string;
  arg_automatic_params : option (gmap string pyval)
}.

(** The defaults of the signature of [__init__]; [x0] has none. *)
Definition default_kwargs (x0 : Point) : kwargs :=
  {| arg_x0 := x0;
     arg_init_radius := 1;
     arg_max_iter := 100;
     arg_tolerance := 1 # 100000000;
     arg_beta_inc := 12 # 10;
     arg_beta_red := 8 # 10;
     arg_eta1 := 2 # 10;
     arg_eta2 := 8 # 10;
     arg_method := "local";
     arg_N_min_samples := 6;
     arg_print_status := false;
     arg_constr_handling := "Discrimination";
     arg_sampling := "g";
     arg_explore := None;
     arg_sampling_trust_ratio := [1 # 10; 9 # 10];
     arg_min_radius := 5 # 100;
     arg_min_restart_radius := 2;
     arg_conv_radius := 2 # 10;
     arg_no_x0 := 5;
     arg_rescale_radius := false;
     arg_solver_to_use := "SCS";
     arg_automatic_params := None |}.

Definition mcd_message : string :=
  "Exploration heuristics were developed to be used with MCD implemented (set 'sampling': 'base' in custom_params dictionary to use heuristics or set 'explore': None in custom_params to sample without MCD)".

Section Facade.

(** What lives in [CUATRO.utilities] and in the variant modules. *)
Context {Solver : Type}.
Variable assign_solver : string -> Solver.
Variable ut_rescale_radius : Q -> Bounds -> Q.
Variable implementation : variant -> Point -> run_args -> outcome output_dict.

(** The attributes of a constructed instance. *)
Record CUATRO : Type := {
  x0 : Point;
  init_radius : Q;
  max_iter : Z;
  tolerance : Q;
  beta_inc : Q;
  beta_red : Q;
  eta1 : Q;
  eta2 : Q;
  method : string;
  N_min_samples : Z;
  print_status : bool;
  constr_handling : string;
  sampling : string;
  explore : option string;
  sampling_trust_ratio : list Q;
  min_radius : Q;
  min_restart_radius : Q;
  conv_radius : Q;
  no_x0 : Z;
  rescale_radius : bool;
  solver_to_use : Solver;
  automatic_params : option (gmap string pyval)
}.

(** The block guarded by [if self.automatic_params:].  Each of the three
    comparisons needs its key; both branches of each are [pass]. *)
Definition automatic_params_block (ap : option (gmap string pyval)) : outcome unit :=
  match ap with
  | Some d =>
      if dict_truthy ap then
        e <- subscript d "exp" ;;
        let _ := if py_eq_str e "expensive" then tt else tt in
        s <- subscript d "safety" ;;
        let _ := if py_eq_str s "safety" then tt else tt in
        c <- subscript d "convex" ;;
        let _ := if py_eq_str c "convex" then tt else tt in
        Return tt
      else Return tt
  | None => Return tt
  end.

Definition __init__ (a : kwargs) : outcome CUATRO :=
  if negb (py_in (arg_method a) ["local"; "global"]) then
    Raise (ValueError "Please provide valid method")
  else if negb (py_in (arg_constr_handling a) ["Discrimination"; "Regression"]) then
    Raise (ValueError "Please provide valid constraint handling method")
  else if negb (py_in (arg_sampling a) ["base"; "g"]) then
    Raise (ValueError "Please enter a valid sampling method")
  else if negb (py_in (arg_explore a)
                  [None; Some "feasible_sampling"; Some "exploit_explore";
                   Some "sampling_region"; Some "TIS"; Some "TIP"]) then
    Raise (ValueError "Please enter valid exploration heuristics or None")
  else if negb (py_in (arg_solver_to_use a) ["SCS"; "MOSEK"]) then
    Raise (ValueError "Please enter a valid solver (SCS or MOSEK)")
  else
    let assigned_solver := assign_solver (arg_solver_to_use a) in
    _ <- automatic_params_block (arg_automatic_params a) ;;
    Return {| x0 := arg_x0 a;
              init_radius := arg_init_radius a;
              max_iter := arg_max_iter a;
              tolerance := arg_tolerance a;
              beta_inc := arg_beta_inc a;
              beta_red := arg_beta_red a;
              eta1 := arg_eta1 a;
              eta2 := arg_eta2 a;
              method := arg_method a;
              N_min_samples := arg_N_min_samples a;
              print_status := arg_print_status a;
              constr_handling := arg_constr_handling a;
              sampling := arg_sampling a;
              explore := arg_explore a;
              sampling_trust_ratio := arg_sampling_trust_ratio a;
              min_radius := arg_min_radius a;
              min_restart_radius := arg_min_restart_radius a;
              conv_radius := arg_conv_radius a;
              no_x0 := arg_no_x0 a;
              rescale_radius := arg_rescale_radius a;
              solver_to_use := assigned_solver;
              automatic_params := arg_automatic_params a |}.

(** [self.init_radius = new_rad]. *)
Definition set_init_radius (new_rad : Q) (self : CUATRO) : CUATRO :=
  {| x0 := x0 self;
     init_radius := new_rad;
     max_iter := max_iter self;
     tolerance := tolerance self;
     beta_inc := beta_inc self;
     beta_red := beta_red self;
     eta1 := eta1 self;
     eta2 := eta2 self;
     method := method self;
     N_min_samples := N_min_samples self;
     print_status := print_status self;
     constr_handling := constr_handling self;
     sampling := sampling self;
     explore := explore self;
     sampling_trust_ratio := sampling_trust_ratio self;
     min_radius := min_radius self;
     min_restart_radius := min_restart_radius self;
     conv_radius := conv_radius self;
     no_x0 := no_x0 self;
     rescale_radius := rescale_radius self;
     solver_to_use := solver_to_use self;
     automatic_params := automatic_params self |}.

(** [self.automatic_params = ap]. *)
Definition set_automatic_params (ap : option (gmap string pyval)) (self : CUATRO) : CUATRO :=
  {| x0 := x0 self;
     init_radius := init_radius self;
     max_iter := max_iter self;
     tolerance := tolerance self;
     beta_inc := beta_inc self;
     beta_red := beta_red self;
     eta1 := eta1 self;
     eta2 := eta2 self;
     method := method self;
     N_min_samples := N_min_samples self;
     print_status := print_status self;
     constr_handling := constr_handling self;
     sampling := sampling self;
     explore := explore self;
     sampling_trust_ratio := sampling_trust_ratio self;
     min_radius := min_radius self;
     min_restart_radius := min_restart_radius self;
     conv_radius := conv_radius self;
     no_x0 := no_x0 self;
     rescale_radius := rescale_radius self;
     solver_to_use := solver_to_use self;
     automatic_params := ap |}.

(** What one call of [run_optimiser] leaves behind: the instance as the
    call left it, what was printed, which variant class was instantiated
    and run (if any), and the value returned or the exception raised. *)
Record run_result : Type := {
  self_after : CUATRO;
  stdout : list string;
  invoked : option variant;
  output : outcome output_dict
}.

(** [raise ValueError(...)] and the like: nothing was run. *)
Definition raising (self : CUATRO) (e : exn) : run_result :=
  {| self_after := self; stdout := []; invoked := None; output := Raise e |}.

(** [output = V(self.x0).optimise(sim, constraints, bounds, max_f_eval,
    rnd, prior_evals)], then whatever the branch prints, then
    [return output].  An exception of the variant propagates, and the
    branch prints nothing. *)
Definition run_variant (v : variant) (printed : list string)
    (self : CUATRO) (r : run_args) : run_result :=
  let out := implementation v (x0 self) r in
  {| self_after := self;
     stdout := if is_Return out then printed else [];
     invoked := Some v;
     output := out |}.

(** [if (self.rescale_radius and bounds): self.init_radius = ...]. *)
Definition rescale_step (self : CUATRO) (r : run_args) : CUATRO :=
  match bounds r with
  | Some b =>
      if rescale_radius self && list_truthy (bounds r) then
        let new_rad := ut_rescale_radius (init_radius self) b in
        set_init_radius new_rad self
      else self
  | None => self
  end.

Definition str_eq (s t : string) : bool := bool_decide (s = t).
Definition is_None {A : Type} (o : option A) : bool :=
  match o with None => true | Some _ => false end.
Definition explore_is (o : option string) (t : string) : bool :=
  bool_decide (o = Some t).

Definition run_optimiser (self0 : CUATRO) (r : run_args) : run_result :=
  let self := rescale_step self0 r in
  if str_eq (sampling self) "g" then
    if negb (is_None (explore self)) then raising self (ValueError mcd_message)
    else run_variant CUATRO_g [] self r
  else if str_eq (sampling self) "base" && is_None (explore self) then
    run_variant CUATRO_base [] self r
  else if explore_is (explore self) "feasible_sampling" then
    if negb (str_eq (sampling self) "base") then raising self (ValueError mcd_message)
    else run_variant CUATRO_feas_samp [] self r
  else if explore_is (explore self) "exploit_explore" then
    if negb (str_eq (sampling self) "base") then raising self (ValueError mcd_message)
    else run_variant CUATRO_expl_expl [] self r
  else if explore_is (explore self) "sampling_region" then
    if negb (str_eq (sampling self) "base") then raising self (ValueError mcd_message)
    else run_variant CUATRO_sampling_region [] self r
  else if explore_is (explore self) "TIS" then
    if negb (str_eq (sampling self) "base") then raising self (ValueError mcd_message)
    else run_variant CUATRO_TIS [] self r
  else if explore_is (explore self) "TIP" then
    if negb (str_eq (sampling self) "base") then raising self (ValueError mcd_message)
    else run_variant CUATRO_TIP ["tip works"] self r
  else
    (* no branch bound [output]: [return output] fails *)
    raising self (UnboundLocalError "output").

End Facade.

Arguments CUATRO Solver : clear implicits.

(** ** The trust-region loop behind [optimise]

    [run_optimiser] hands the work to [V(self.x0).optimise(...)] for a
    variant class [V].  Those classes are described by the design document
    only (sections 3, 4 and 7); the model below follows its wording.  The
    numerical capabilities (sample selection, surrogate fit, convex
    subproblem) are left abstract in a [Strategy]. *)

Module TrustRegionLoop.

(** Modelled from the spec: an Evaluation pairs a Point with its true
    objective value and constraint vector (the variant modules that hold
    the sample history are not among the sources). *)
Record Evaluation : Type := {
  ev_x : Point;
  ev_f : fval;
  ev_g : list fval
}.

(** Modelled from the spec: the hyperparameters the loop reads.  The
    dispatcher builds a variant from [x0] alone, so these are the variant
    class's own values, kept here as data. *)
Record Hyper : Type := {
  h_init_radius : Q;
  h_max_iter : nat;
  h_tolerance : Q;
  h_beta_inc : Q;
  h_beta_red : Q;
  h_eta1 : Q;
  h_eta2 : Q;
  h_N_min_samples : nat;
  h_min_radius : Q;
  h_max_radius : option Q;
  h_solve_failure_cap : option nat
}.

(** Modelled from the spec: the TrustRegionStrategy capability, one per
    variant: SampleSelector ([select_samples]: seed, center, radius,
    bounds, count needed, points already drawn), SurrogateFitter ([fit],
    [None] for a degenerate window), SubproblemSolver ([solve]: the
    minimizer with the predicted value at the center and at the minimizer,
    [None] when it fails), the region's norm ([within]) and the
    implementation-defined stagnation policy. *)
Record Strategy : Type := {
  hyper : Hyper;
  Surrogate : Type;
  within : Point -> Q -> Point -> bool;
  select_samples : Z -> Point -> Q -> option Bounds -> nat -> list Point -> list Point;
  fit : list Evaluation -> option Surrogate;
  solve : Surrogate -> Point -> Q -> option Bounds -> option (Point * Q * Q);
  stagnated : Q -> list fval -> bool
}.

(** Modelled from the spec: TrustRegion (center, radius), sample history,
    evaluation count and the per-iteration records, all owned by one
    [optimise] call. *)
Record state : Type := {
  center : Evaluation;
  radius : Q;
  history : list Evaluation;
  f_evals : nat;
  f_store : list fval;
  x_store : list Point;
  g_store : list (list fval);
  solve_failures : nat
}.

Inductive status : Type :=
| Converged
| BudgetExhausted
| MaxIter
| Stagnation
| Aborted.

Inductive verdict : Type :=
| Reject
| AcceptKeep
| AcceptGrow.

Definition Qlt_b (a b : Q) : bool := negb (Qle_bool b a).

(** [a] is strictly better than [b]; a non-finite value is the worst. *)
Definition f_lt (a b : fval) : bool :=
  match a, b with
  | Finite p, Finite q => Qlt_b p q
  | Finite _, NonFinite => true
  | NonFinite, _ => false
  end.

(** [a] is at most [b], with the non-finite value on top. *)
Definition f_le (a b : fval) : Prop :=
  match a, b with
  | Finite p, Finite q => (p <= q)%Q
  | _, NonFinite => True
  | NonFinite, Finite _ => False
  end.

(** Each entry is at most the one before it. *)
Definition non_increasing (l : list fval) : Prop :=
  forall (i : nat) (a b : fval),
    l !! i = Some a -> l !! (S i) = Some b -> f_le b a.

Fixpoint point_eqb (x y : Point) : bool :=
  match x, y with
  | [], [] => true
  | a :: x', b :: y' => Qeq_bool a b && point_eqb x' y'
  | _, _ => false
  end.

Definition g_ok (g : fval) : bool :=
  match g with
  | Finite q => Qle_bool q 0
  | NonFinite => false
  end.

(** Modelled from the spec: a sample is feasible when its objective is
    finite and every constraint holds, [g_i(x) <= 0]. *)
Definition feasible (e : Evaluation) : bool :=
  match ev_f e with
  | Finite _ => forallb g_ok (ev_g e)
  | NonFinite => false
  end.

(** Modelled from the spec: the lowest feasible observed f; the
    lowest-index sample wins ties. *)
Fixpoint best_feasible (h : list Evaluation) : option Evaluation :=
  match h with
  | [] => None
  | e :: h' =>
      match best_feasible h' with
      | Some b =>
          if feasible e && negb (f_lt (ev_f b) (ev_f e)) then Some e else Some b
      | None => if feasible e then Some e else None
      end
  end.

(** Modelled from the spec: PriorEvals merged into the sample history. *)
Fixpoint merge_priors (xs : list Point) (fs : list fval) (gs : list (list fval))
  : list Evaluation :=
  match xs, fs with
  | x :: xs', f :: fs' =>
      {| ev_x := x; ev_f := f; ev_g := hd [] gs |} :: merge_priors xs' fs' (tl gs)
  | _, _ => []
  end.

Definition midpoint (b : Bounds) : Point :=
  map (fun lh => ((fst lh + snd lh) / 2)%Q) b.

Definition f_add (a b : fval) : fval :=
  match a, b with
  | Finite p, Finite q => Finite (p + q)
  | _, _ => NonFinite
  end.

(** Modelled from the spec: [g_viol], the sum over all constraints of
    [max(0, g_i(x))]. *)
Definition violation (g : list fval) : fval :=
  fold_right
    (fun gi acc =>
       f_add acc
         match gi with
         | Finite q => Finite (if Qle_bool q 0 then 0 else q)
         | NonFinite => NonFinite
         end)
    (Finite 0) g.

Section Loop.

Variable S : Strategy.
Variable x0 : Point.
Variable r : run_args.

Local Abbreviation H := (hyper S).

Definition evaluate (x : Point) : Evaluation :=
  {| ev_x := x;
     ev_f := sim r x;
     ev_g := map (fun g => g x) (default [] (constraints r)) |}.

Definition known (x : Point) (h : list Evaluation) : option Evaluation :=
  find (fun e => point_eqb (ev_x e) x) h.

(** Appending an Evaluation to the history: one unit of budget. *)
Definition charge (e : Evaluation) (st : state) : state :=
  {| center := center st; radius := radius st;
     history := history st ++ [e];
     f_evals := Datatypes.S (f_evals st);
     f_store := f_store st; x_store := x_store st; g_store := g_store st;
     solve_failures := solve_failures st |}.

(** Modelled from the spec: one Evaluation per distinct sampled point
    (a point already in the history is not evaluated again); every
    true evaluation consumes one unit of [max_f_eval]; with the budget
    exhausted there is no evaluation. *)
Definition observe (x : Point) (st : state) : option (Evaluation * state) :=
  match known x (history st) with
  | Some e => Some (e, st)
  | None =>
      if (max_f_eval r <=? f_evals st)%nat then None
      else let e := evaluate x in Some (e, charge e st)
  end.

(** Evaluating a batch of drawn points, in order, while budget remains. *)
Fixpoint sample_points (pts : list Point) (st : state) : state :=
  match pts with
  | [] => st
  | x :: rest =>
      match observe x st with
      | Some (_, st') => sample_points rest st'
      | None => st
      end
  end.

Definition set_center (e : Evaluation) (st : state) : state :=
  {| center := e; radius := radius st; history := history st;
     f_evals := f_evals st;
     f_store := f_store st; x_store := x_store st; g_store := g_store st;
     solve_failures := solve_failures st |}.

Definition set_radius (rad : Q) (st : state) : state :=
  {| center := center st; radius := rad; history := history st;
     f_evals := f_evals st;
     f_store := f_store st; x_store := x_store st; g_store := g_store st;
     solve_failures := solve_failures st |}.

Definition set_solve_failures (n : nat) (st : state) : state :=
  {| center := center st; radius := radius st; history := history st;
     f_evals := f_evals st;
     f_store := f_store st; x_store := x_store st; g_store := g_store st;
     solve_failures := n |}.

(** Modelled from the spec: the IterationRecord, a snapshot of the best
    f, best x and constraint values of the iteration. *)
Definition record_iteration (st : state) : state :=
  {| center := center st; radius := radius st; history := history st;
     f_evals := f_evals st;
     f_store := f_store st ++ [ev_f (center st)];
     x_store := x_store st ++ [ev_x (center st)];
     g_store := g_store st ++ [ev_g (center st)];
     solve_failures := solve_failures st |}.

Definition window (st : state) : list Evaluation :=
  List.filter (fun e => within S (ev_x (center st)) (radius st) (ev_x e)) (history st).

Definition draw (count : nat) (st : state) : list Point :=
  select_samples S (rnd r) (ev_x (center st)) (radius st) (bounds r) count
    (map ev_x (history st)).

(** Modelled from the spec: step 5, the ratio test.  Without a surrogate
    prediction, or with a non-finite operand, [rho] is undefined and the
    step is rejected. *)
Definition ratio_test (fc fx : fval) (pred : option (Q * Q)) : verdict :=
  match fc, fx, pred with
  | Finite a, Finite b, Some (mc, mx) =>
      let rho := ((a - b) / (mc - mx))%Q in
      if Qlt_b rho (h_eta1 H) then Reject
      else if Qlt_b rho (h_eta2 H) then AcceptKeep
      else AcceptGrow
  | _, _, _ => Reject
  end.

Definition accepted (v : verdict) : bool :=
  match v with Reject => false | _ => true end.

Definition new_radius (v : verdict) (rad : Q) : Q :=
  match v with
  | Reject => (rad * h_beta_red H)%Q
  | AcceptKeep => rad
  | AcceptGrow =>
      let grown := (rad * h_beta_inc H)%Q in
      match h_max_radius H with
      | Some cap => if Qle_bool grown cap then grown else cap
      | None => grown
      end
  end.

(** Modelled from the spec: steps 4 to 6 for a candidate: evaluate it
    (consumes budget), run the ratio test and adapt the radius, move the
    incumbent when the step is accepted and the candidate is feasible
    and strictly improves f, record the iteration. *)
Definition try_candidate (xc : Point) (pred : option (Q * Q)) (st : state)
  : state * option status :=
  match observe xc st with
  | None => (st, Some BudgetExhausted)
  | Some (e, st1) =>
      let v := ratio_test (ev_f (center st1)) (ev_f e) pred in
      let st2 := set_radius (new_radius v (radius st1)) st1 in
      let st3 :=
        if accepted v && feasible e && f_lt (ev_f e) (ev_f (center st2))
        then set_center e st2 else st2 in
      (record_iteration st3, None)
  end.

Definition cap_reached (n : nat) : bool :=
  match h_solve_failure_cap H with
  | Some cap => (cap <=? n)%nat
  | None => false
  end.

(** Modelled from the spec: one iteration, steps 1 to 6 of section 4.1,
    with the failure handling of section 7. *)
Definition step (st : state) : state * option status :=
  (* 1. supplement an under-sampled region *)
  let n_in := length (window st) in
  let st1 :=
    if (n_in <? h_N_min_samples H)%nat
    then sample_points (draw (h_N_min_samples H - n_in) st) st
    else st in
  if (max_f_eval r <=? f_evals st1)%nat then (st1, Some BudgetExhausted)
  else
    (* 2. fit on the window, or on the full history if insufficient *)
    let w := window st1 in
    let data := if (length w <? h_N_min_samples H)%nat then history st1 else w in
    match fit S data with
    | None =>
        (* FitError: forced re-sampling, no abort *)
        let st2 := sample_points (draw (h_N_min_samples H) st1) st1 in
        (record_iteration st2, None)
    | Some m =>
        (* 3. the subproblem *)
        match solve S m (ev_x (center st1)) (radius st1) (bounds r) with
        | Some (xc, mc, mx) =>
            try_candidate xc (Some (mc, mx)) (set_solve_failures 0 st1)
        | None =>
            (* SolveError: fall back to the best known feasible sample *)
            let st2 := set_solve_failures (Datatypes.S (solve_failures st1)) st1 in
            if cap_reached (solve_failures st2) then (st2, Some Aborted)
            else
              match best_feasible (history st2) with
              | Some e => try_candidate (ev_x e) None st2
              | None =>
                  (record_iteration
                     (set_radius (new_radius Reject (radius st2)) st2), None)
              end
        end
    end.

(** Modelled from the spec: step 7 and the hard cutoff.  [n] counts the
    iterations left before [iter >= max_iter]. *)
Fixpoint iterate (n : nat) (st : state) : state * status :=
  match n with
  | O => (st, MaxIter)
  | Datatypes.S n' =>
      if (max_f_eval r <=? f_evals st)%nat then (st, BudgetExhausted)
      else if Qlt_b (radius st) (h_min_radius H) then (st, Converged)
      else if stagnated S (h_tolerance H) (f_store st) then (st, Stagnation)
      else
        match step st with
        | (st', Some s) => (st', s)
        | (st', None) => iterate n' st'
        end
  end.

(** Modelled from the spec: the initial center: 'bound center' uses the
    midpoint of bounds, 'best eval' the lowest feasible observed f;
    [x0] otherwise. *)
Definition initial_point (h : list Evaluation) : Point :=
  if bool_decide (x0_method (prior_evals r) = "bound center") then
    match bounds r with
    | Some (b :: bs) => midpoint (b :: bs)
    | _ => x0
    end
  else
    match best_feasible h with
    | Some e => ev_x e
    | None => x0
    end.

(** The state before the first iteration.  The initial center is
    evaluated under the budget like any other point; one that could not
    be evaluated carries the worst-case value. *)
Definition init_state : state :=
  let p := prior_evals r in
  let h := merge_priors (X_samples_list p) (f_eval_list p) (g_eval_list p) in
  let c := initial_point h in
  let st0 :=
    {| center := {| ev_x := c; ev_f := NonFinite; ev_g := [] |};
       radius := h_init_radius H;
       history := h;
       f_evals := 0;
       f_store := []; x_store := []; g_store := [];
       solve_failures := 0 |} in
  match observe c st0 with
  | Some (e, st1) => set_center e st1
  | None => st0
  end.

Definition report (st : state) : output_dict :=
  {| out_x := ev_x (center st);
     out_f := ev_f (center st);
     out_f_evals := f_evals st;
     out_f_store := f_store st;
     out_x_store := x_store st;
     out_g_store := g_store st;
     out_g_viol := violation (ev_g (center st)) |}.

Definition run : state * status := iterate (h_max_iter H) init_state.

(** Modelled from the spec: the entrypoint
    [optimise(sim, constraints, bounds, max_f_eval, rnd, prior_evals)]
    of a variant built from [x0].  Only an unrecoverable repeated
    SolveError is surfaced as an exception. *)
Definition optimise : outcome output_dict :=
  match snd run with
  | Aborted => Raise SolveError
  | _ => Return (report (fst run))
  end.

End Loop.

End TrustRegionLoop.

(** ** The dispatcher over the modelled loop *)

(** Every variant is the same core loop with its own strategy. *)
Definition loop_implementation (strategies : variant -> TrustRegionLoop.Strategy)
    (v : variant) (x0 : Point) (r : run_args) : outcome output_dict :=
  TrustRegionLoop.optimise (strategies v) x0 r.

(** ** Ambient random state

    A sampler may draw from a source of randomness that outlives the call
    (a global generator), and a call may leave that source advanced.  The
    seed [rnd] is an argument of [optimise]; the ambient state is not. *)

(** The same strategy with another SampleSelector. *)
Definition with_sampler (S : TrustRegionLoop.Strategy)
    (sel : Z -> Point -> Q -> option Bounds -> nat -> list Point -> list Point)
  : TrustRegionLoop.Strategy :=
  {| TrustRegionLoop.hyper := TrustRegionLoop.hyper S;
     TrustRegionLoop.Surrogate := TrustRegionLoop.Surrogate S;
     TrustRegionLoop.within := TrustRegionLoop.within S;
     TrustRegionLoop.select_samples := sel;
     TrustRegionLoop.fit := TrustRegionLoop.fit S;
     TrustRegionLoop.solve := TrustRegionLoop.solve S;
     TrustRegionLoop.stagnated := TrustRegionLoop.stagnated S |}.

(** Modelled from the spec: a variant whose sampling may be stochastic
    (the sampler modules are not among the sources): the loop's other
    capabilities, a SampleSelector that sees the ambient random state [W]
    besides the seed [rnd] and its inputs, and the ambient state a call of
    [optimise] leaves behind. *)
Record StochasticVariant (W : Type) : Type := {
  capabilities : TrustRegionLoop.Strategy;
  sampler : W -> Z -> Point -> Q -> option Bounds -> nat -> list Point -> list Point;
  advance : W -> Point -> run_args -> W
}.

Arguments capabilities {W} s.
Arguments sampler {W} s.
Arguments advance {W} s.

(** The variant as it behaves with the ambient state at [w]. *)
Definition strategy_in {W : Type} (w : W) (V : StochasticVariant W)
  : TrustRegionLoop.Strategy :=
  with_sampler (capabilities V) (sampler V w).


(** A call of [run_optimiser] with the ambient state at [w]: what the call
    leaves, and the ambient state after it (untouched when no variant
    ran). *)
Definition run_in_world {Solver W : Type}
    (ut_rescale_radius : Q -> Bounds -> Q)
    (variants : variant -> StochasticVariant W)
    (w : W) (self : CUATRO Solver) (r : run_args) : run_result * W :=
  let res :=
    run_optimiser ut_rescale_radius
      (loop_implementation (fun v => strategy_in w (variants v))) self r in
  (res,
   match invoked res with
   | Some v => advance (variants v) w (x0 (self_after res)) r
   | None => w
   end).

(** ** Predicates of the interface *)

(** All five string-valued arguments lie in their enumerated domains. *)
Definition strings_in_domain (a : kwargs) : bool :=
  py_in (arg_method a) ["local"; "global"]
  && py_in (arg_constr_handling a) ["Discrimination"; "Regression"]
  && py_in (arg_sampling a) ["base"; "g"]
  && py_in (arg_explore a)
       [None; Some "feasible_sampling"; Some "exploit_explore";
        Some "sampling_region"; Some "TIS"; Some "TIP"]
  && py_in (arg_solver_to_use a) ["SCS"; "MOSEK"].

(** The numeric arguments lie in the domains the interface states:
    [init_radius>0], [max_iter>0], [tolerance>0], [beta_inc>1], [beta_red]
    in (0,1), [eta1<eta2] both in [0,1], [N_min_samples>=1]. *)
Definition numerics_in_domain (a : kwargs) : bool :=
  TrustRegionLoop.Qlt_b 0 (arg_init_radius a)
  && (0 <? arg_max_iter a)%Z
  && TrustRegionLoop.Qlt_b 0 (arg_tolerance a)
  && TrustRegionLoop.Qlt_b 1 (arg_beta_inc a)
  && TrustRegionLoop.Qlt_b 0 (arg_beta_red a)
  && TrustRegionLoop.Qlt_b (arg_beta_red a) 1
  && TrustRegionLoop.Qlt_b (arg_eta1 a) (arg_eta2 a)
  && Qle_bool 0 (arg_eta1 a) && Qle_bool (arg_eta2 a) 1
  && (1 <=? arg_N_min_samples a)%Z.

(** The variant a (sampling, explore) pair stands for: [CUATRO_g] for
    sampling 'g', [CUATRO_base] for 'base' without heuristic, and the
    matching heuristic class for each non-None explore value. *)
Definition select_variant (sampling : string) (explore : option string)
  : option variant :=
  if bool_decide (sampling = "g") then
    match explore with None => Some CUATRO_g | Some _ => None end
  else if bool_decide (sampling = "base") then
    match explore with
    | None => Some CUATRO_base
    | Some h =>
        if bool_decide (h = "feasible_sampling") then Some CUATRO_feas_samp
        else if bool_decide (h = "exploit_explore") then Some CUATRO_expl_expl
        else if bool_decide (h = "sampling_region") then Some CUATRO_sampling_region
        else if bool_decide (h = "TIS") then Some CUATRO_TIS
        else if bool_decide (h = "TIP") then Some CUATRO_TIP
        else None
    end
  else None.

(** The same keyword arguments with another [automatic_params]. *)
Definition with_automatic_params (ap : option (gmap string pyval)) (a : kwargs) : kwargs :=
  {| arg_x0 := arg_x0 a;
     arg_init_radius := arg_init_radius a;
     arg_max_iter := arg_max_iter a;
     arg_tolerance := arg_tolerance a;
     arg_beta_inc := arg_beta_inc a;
     arg_beta_red := arg_beta_red a;
     arg_eta1 := arg_eta1 a;
     arg_eta2 := arg_eta2 a;
     arg_method := arg_method a;
     arg_N_min_samples := arg_N_min_samples a;
     arg_print_status := arg_print_status a;
     arg_constr_handling := arg_constr_handling a;
     arg_sampling := arg_sampling a;
     arg_explore := arg_explore a;
     arg_sampling_trust_ratio := arg_sampling_trust_ratio a;
     arg_min_radius := arg_min_radius a;
     arg_min_restart_radius := arg_min_restart_radius a;
     arg_conv_radius := arg_conv_radius a;
     arg_no_x0 := arg_no_x0 a;
     arg_rescale_radius := arg_rescale_radius a;
     arg_solver_to_use := arg_solver_to_use a;
     arg_automatic_params := ap |}.

(** The same keyword arguments with other [sampling], [explore] and
    [rescale_radius]. *)
Definition with_modes (sampling : string) (explore : option string)
    (rescale : bool) (a : kwargs) : kwargs :=
  {| arg_x0 := arg_x0 a;
     arg_init_radius := arg_init_radius a;
     arg_max_iter := arg_max_iter a;
     arg_tolerance := arg_tolerance a;
     arg_beta_inc := arg_beta_inc a;
     arg_beta_red := arg_beta_red a;
     arg_eta1 := arg_eta1 a;
     arg_eta2 := arg_eta2 a;
     arg_method := arg_method a;
     arg_N_min_samples := arg_N_min_samples a;
     arg_print_status := arg_print_status a;
     arg_constr_handling := arg_constr_handling a;
     arg_sampling := sampling;
     arg_explore := explore;
     arg_sampling_trust_ratio := arg_sampling_trust_ratio a;
     arg_min_radius := arg_min_radius a;
     arg_min_restart_radius := arg_min_restart_radius a;
     arg_conv_radius := arg_conv_radius a;
     arg_no_x0 := arg_no_x0 a;
     arg_rescale_radius := rescale;
     arg_solver_to_use := arg_solver_to_use a;
     arg_automatic_params := arg_automatic_params a |}.

(** The five exploration heuristics [run_optimiser] has a branch for. *)
Definition heuristics : list (option string) :=
  [Some "feasible_sampling"; Some "exploit_explore"; Some "sampling_region";
   Some "TIS"; Some "TIP"].

Definition has_key (d : gmap string pyval) (key : string) : bool :=
  match d !! key with Some _ => true | None => false end.

(** An [automatic_params] the configuration block gets through: [None], an
    empty dict, or a dict with the three keys. *)
Definition automatic_params_accepted (ap : option (gmap string pyval)) : bool :=
  match ap with
  | Some d =>
      negb (dict_truthy ap)
      || (has_key d "exp" && has_key d "safety" && has_key d "convex")
  | None => true
  end.

(** The (sampling, explore) pair of each variant class. *)
Definition configuration_of (v : variant) : string * option string :=
  match v with
  | CUATRO_g => ("g", None)
  | CUATRO_base => ("base", None)
  | CUATRO_feas_samp => ("base", Some "feasible_sampling")
  | CUATRO_expl_expl => ("base", Some "exploit_explore")
  | CUATRO_sampling_region => ("base", Some "sampling_region")
  | CUATRO_TIS => ("base", Some "TIS")
  | CUATRO_TIP => ("base", Some "TIP")
  end.

(** The instance after [n] successive calls of [run_optimiser] with the
    same arguments. *)
Fixpoint repeat_calls {Solver : Type} (ut_rescale_radius : Q -> Bounds -> Q)
    (implementation : variant -> Point -> run_args -> outcome output_dict)
    (n : nat) (self : CUATRO Solver) (r : run_args) : CUATRO Solver :=
  match n with
  | O => self
  | S n' =>
      repeat_calls ut_rescale_radius implementation n'
        (self_after (run_optimiser ut_rescale_radius implementation self r)) r
  end.


(** ** A concrete environment for the examples *)

Module Demo.

Import TrustRegionLoop.

Inductive cvx_solver : Type := SCS | MOSEK.

Definition assign_solver (name : string) : cvx_solver :=
  if bool_decide (name = "MOSEK") then MOSEK else SCS.

(** A rescaling by the width of the first bound. *)
Definition rescale_radius (radius : Q) (b : Bounds) : Q :=
  match b with
  | (lo, hi) :: _ => (radius * (hi - lo))%Q
  | [] => radius
  end.

Definition Qabs_le (d rad : Q) : bool := Qle_bool d rad && Qle_bool (- d) rad.

Fixpoint within_box (c : Point) (rad : Q) (x : Point) : bool :=
  match c, x with
  | [], [] => true
  | ci :: c', xi :: x' => Qabs_le (xi - ci) rad && within_box c' rad x'
  | _, _ => false
  end.

Definition shift (d : Q) (c : Point) : Point := map (fun ci => (ci + d)%Q) c.

(** A geometric scheme: the corners of the region, then half way. *)
Definition corners (seed : Z) (c : Point) (rad : Q) (b : option Bounds)
    (count : nat) (drawn : list Point) : list Point :=
  take count [shift rad c; shift (- rad) c; shift (rad / 2) c; shift (- (rad / 2)) c].

Definition keep_window (data : list Evaluation) : option (list Evaluation) :=
  match data with
  | _ :: _ :: _ => Some data
  | _ => None
  end.

Fixpoint halfway (c x : Point) : Point :=
  match c, x with
  | ci :: c', xi :: x' => ((ci + xi) / 2)%Q :: halfway c' x'
  | _, _ => []
  end.

(** Half way from the center to the best sample of the window, with a
    predicted decrease of one. *)
Definition toward_best (m : list Evaluation) (c : Point) (rad : Q)
    (b : option Bounds) : option (Point * Q * Q) :=
  match best_feasible m with
  | Some e => Some (halfway c (ev_x e), 1%Q, 0%Q)
  | None => None
  end.

Definition hyper : Hyper :=
  {| h_init_radius := 1; h_max_iter := 4; h_tolerance := 1 # 100000000;
     h_beta_inc := 12 # 10; h_beta_red := 8 # 10;
     h_eta1 := 2 # 10; h_eta2 := 8 # 10;
     h_N_min_samples := 3; h_min_radius := 5 # 100;
     h_max_radius := None; h_solve_failure_cap := Some 3%nat |}.

Definition strategy : Strategy :=
  {| TrustRegionLoop.hyper := hyper;
     Surrogate := list Evaluation;
     within := within_box;
     select_samples := corners;
     fit := keep_window;
     solve := toward_best;
     stagnated := fun _ _ => false |}.

Definition implementation : variant -> Point -> run_args -> outcome output_dict :=
  loop_implementation (fun _ => strategy).

(** [f(x) = ||x||^2]. *)
Definition sphere (x : Point) : fval :=
  Finite (fold_right (fun xi acc => (xi * xi + acc)%Q) 0%Q x).

Definition args (b : option Bounds) (budget : nat) : run_args :=
  {| sim := sphere; constraints := None; bounds := b;
     max_f_eval := budget; rnd := 1; prior_evals := default_prior_evals |}.

Definition start : Point := [5%Q; 5%Q].

(** Every numeric argument outside its stated domain, the rest at the
    defaults. *)
Definition bad_numerics : kwargs :=
  {| arg_x0 := start;
     arg_init_radius := -1;
     arg_max_iter := 0;
     arg_tolerance := 0;
     arg_beta_inc := 1;
     arg_beta_red := 1;
     arg_eta1 := 2;
     arg_eta2 := 2;
     arg_method := "local";
     arg_N_min_samples := 0;
     arg_print_status := false;
     arg_constr_handling := "Discrimination";
     arg_sampling := "g";
     arg_explore := None;
     arg_sampling_trust_ratio := [1 # 10; 9 # 10];
     arg_min_radius := 5 # 100;
     arg_min_restart_radius := 2;
     arg_conv_radius := 2 # 10;
     arg_no_x0 := 5;
     arg_rescale_radius := false;
     arg_solver_to_use := "SCS";
     arg_automatic_params := None |}.

Definition tuning : gmap string pyval :=
  <["exp" := PyStr "expensive"]>
    (<["safety" := PyStr "safety"]> (<["convex" := PyStr "other"]> ∅)).

(** A dict with 'exp' but without 'safety'. *)
Definition partial_tuning : gmap string pyval :=
  <["exp" := PyStr "cheap"]> (<["convex" := PyStr "convex"]> ∅).

(** A resolver that agrees with [assign_solver] on the two solver names. *)
Definition assign_solver' (name : string) : cvx_solver :=
  if bool_decide (name = "SCS") then SCS else MOSEK.


(** A sampler that reads the ambient state: the region it fills widens
    with every call made so far. *)
Definition drifting : StochasticVariant nat :=
  {| capabilities := strategy;
     sampler := fun w seed c rad b count drawn =>
                  corners seed c (rad * (1 + inject_Z (Z.of_nat w)))%Q b count drawn;
     advance := fun w _ _ => Datatypes.S w |}.

End Demo.

(** ** Invariants of the loop *)

(** The evaluation count stays within the budget. *)
Definition within_budget (r : run_args) (st : TrustRegionLoop.state) : Prop :=
  (TrustRegionLoop.f_evals st <= max_f_eval r)%nat.

(** The records are non-increasing and the incumbent is at most every
    recorded value. *)
Definition store_ok (st : TrustRegionLoop.state) : Prop :=
  TrustRegionLoop.non_increasing (TrustRegionLoop.f_store st)
  /\ forall v, v ∈ TrustRegionLoop.f_store st ->
       TrustRegionLoop.f_le (TrustRegionLoop.ev_f (TrustRegionLoop.center st)) v.

(** * Properties *)

Section LoopFacts.

Import TrustRegionLoop.

Lemma f_le_refl (a : fval) : f_le a a.
Proof. destruct a; simpl; [apply Qle_refl | exact I]. Qed.

Lemma f_le_trans (a b c : fval) : f_le a b -> f_le b c -> f_le a c.
Proof.
  destruct a, b, c; simpl; try tauto.
  apply Qle_trans.
Qed.

Lemma Qlt_b_lt (p q : Q) : Qlt_b p q = true -> (p < q)%Q.
Proof.
  unfold Qlt_b. intros Hb. apply negb_true_iff in Hb.
  apply Qnot_le_lt. intros Hle. apply Qle_bool_iff in Hle. congruence.
Qed.

Lemma f_lt_le (a b : fval) : f_lt a b = true -> f_le a b.
Proof.
  destruct a, b; simpl; try discriminate; try tauto.
  intros Hb. apply Qlt_le_weak. now apply Qlt_b_lt.
Qed.

Lemma non_increasing_nil : non_increasing [].
Proof. intros i a b Ha. rewrite lookup_nil in Ha. discriminate. Qed.

(** Recording a value that is at most every earlier record. *)
Lemma non_increasing_snoc (l : list fval) (c : fval) :
  non_increasing l ->
  (forall v, v ∈ l -> f_le c v) ->
  non_increasing (l ++ [c]).
Proof.
  intros Hl Hc i a b Ha Hb.
  destruct (decide (S i < length l)%nat) as [Hlt | Hge].
  - rewrite lookup_app_l in Ha by lia.
    rewrite lookup_app_l in Hb by lia.
    eapply Hl; eauto.
  - assert (Hi : (i < length l)%nat).
    { apply lookup_lt_Some in Hb. rewrite length_app in Hb. simpl in Hb. lia. }
    rewrite lookup_app_l in Ha by lia.
    rewrite lookup_app_r in Hb by lia.
    replace (S i - length l)%nat with 0%nat in Hb by lia.
    simpl in Hb. inversion Hb; subst b.
    apply Hc. eapply list_elem_of_lookup_2; eauto.
Qed.

Variable S : Strategy.
Variable x0 : Point.
Variable r : run_args.

(** *** The budget *)

Lemma observe_budget (x : Point) (st st' : state) (e : Evaluation) :
  observe r x st = Some (e, st') -> within_budget r st -> within_budget r st'.
Proof.
  unfold observe, within_budget. intros Hobs Hst.
  destruct (known x (history st)).
  - inversion Hobs; subst; assumption.
  - destruct (Nat.leb_spec (max_f_eval r) (f_evals st)); [discriminate |].
    inversion Hobs; subst; simpl. lia.
Qed.

Lemma sample_points_budget (pts : list Point) (st : state) :
  within_budget r st -> within_budget r (sample_points r pts st).
Proof.
  revert st. induction pts as [| x rest IH]; intros st Hst; simpl; [assumption |].
  destruct (observe r x st) as [[e st'] |] eqn:Hobs; [| assumption].
  apply IH. eapply observe_budget; eauto.
Qed.

Lemma try_candidate_budget (xc : Point) (pred : option (Q * Q)) (st : state) :
  within_budget r st -> within_budget r (fst (try_candidate S r xc pred st)).
Proof.
  intros Hst. unfold try_candidate.
  destruct (observe r xc st) as [[e st1] |] eqn:Hobs; simpl; [| assumption].
  apply observe_budget in Hobs; [| assumption].
  unfold within_budget in *.
  match goal with |- context [if ?b then _ else _] => destruct b end; simpl; assumption.
Qed.

Lemma step_budget (st : state) :
  within_budget r st -> within_budget r (fst (step S r st)).
Proof.
  intros Hst. unfold step.
  set (st1 := if (_ <? _)%nat then _ else st).
  assert (H1 : within_budget r st1).
  { subst st1. destruct (_ <? _)%nat; [apply sample_points_budget |]; assumption. }
  clearbody st1.
  destruct (max_f_eval r <=? f_evals st1)%nat; simpl; [assumption |].
  destruct (fit S _) as [m |]; simpl.
  - destruct (solve S m _ _ _) as [[[xc mc] mx] |].
    + apply try_candidate_budget. exact H1.
    + destruct (cap_reached S _); simpl; [exact H1 |].
      destruct (best_feasible _) as [e |]; simpl; [| exact H1].
      apply try_candidate_budget. exact H1.
  - unfold within_budget; simpl. apply sample_points_budget. exact H1.
Qed.

Lemma iterate_budget (n : nat) (st : state) :
  within_budget r st -> within_budget r (fst (iterate S r n st)).
Proof.
  revert st. induction n as [| n IH]; intros st Hst; simpl; [assumption |].
  destruct (max_f_eval r <=? f_evals st)%nat; simpl; [assumption |].
  destruct (Qlt_b _ _); simpl; [assumption |].
  destruct (stagnated S _ _); simpl; [assumption |].
  pose proof (step_budget st Hst) as Hstep.
  destruct (step S r st) as [st' [s |]]; simpl in *; [assumption |].
  apply IH. assumption.
Qed.

Lemma init_state_budget : within_budget r (init_state S x0 r).
Proof.
  unfold init_state.
  match goal with |- context [observe r ?c ?s] =>
    destruct (observe r c s) as [[e st1] |] eqn:Hobs end.
  - apply observe_budget in Hobs; [exact Hobs |].
    unfold within_budget; simpl; lia.
  - unfold within_budget; simpl; lia.
Qed.

(** With the budget exhausted the loop stops where it stands. *)
Lemma iterate_exhausted (n : nat) (st : state) :
  (max_f_eval r <=? f_evals st)%nat = true ->
  fst (iterate S r n st) = st.
Proof.
  intros Hex. destruct n; simpl; [reflexivity |]. rewrite Hex. reflexivity.
Qed.

(** *** The records *)

Lemma store_ok_frame (st st' : state) :
  center st' = center st -> f_store st' = f_store st ->
  store_ok st -> store_ok st'.
Proof. unfold store_ok. intros -> ->. tauto. Qed.

Lemma observe_store (x : Point) (st st' : state) (e : Evaluation) :
  observe r x st = Some (e, st') -> store_ok st -> store_ok st'.
Proof.
  unfold observe. intros Hobs.
  destruct (known x (history st)).
  - inversion Hobs; subst; tauto.
  - destruct (max_f_eval r <=? f_evals st)%nat; [discriminate |].
    inversion Hobs; subst. apply store_ok_frame; reflexivity.
Qed.

Lemma sample_points_store (pts : list Point) (st : state) :
  store_ok st -> store_ok (sample_points r pts st).
Proof.
  revert st. induction pts as [| x rest IH]; intros st Hst; simpl; [assumption |].
  destruct (observe r x st) as [[e st'] |] eqn:Hobs; [| assumption].
  apply IH. eapply observe_store; eauto.
Qed.

Lemma record_iteration_store (st : state) :
  store_ok st -> store_ok (record_iteration st).
Proof.
  intros [Hmono Hbelow]. split; simpl.
  - apply non_increasing_snoc; assumption.
  - intros v Hv. apply elem_of_app in Hv as [Hv | Hv]; [auto |].
    apply list_elem_of_singleton in Hv. subst v. apply f_le_refl.
Qed.

(** The incumbent only moves to a strictly better value. *)
Lemma set_center_store (e : Evaluation) (st : state) :
  f_lt (ev_f e) (ev_f (center st)) = true ->
  store_ok st -> store_ok (set_center e st).
Proof.
  intros Hlt [Hmono Hbelow]. split; simpl; [assumption |].
  intros v Hv. eapply f_le_trans; [apply f_lt_le; exact Hlt | auto].
Qed.

Lemma try_candidate_store (xc : Point) (pred : option (Q * Q)) (st : state) :
  store_ok st -> store_ok (fst (try_candidate S r xc pred st)).
Proof.
  intros Hst. unfold try_candidate.
  destruct (observe r xc st) as [[e st1] |] eqn:Hobs; simpl; [| assumption].
  apply observe_store in Hobs; [| assumption].
  apply record_iteration_store.
  set (st2 := set_radius _ st1).
  assert (H2 : store_ok st2) by (apply (store_ok_frame st1); auto).
  destruct (accepted _); cbn [andb]; [| exact H2].
  destruct (feasible e); cbn [andb]; [| exact H2].
  destruct (f_lt (ev_f e) (ev_f (center st1))) eqn:Hlt; [| exact H2].
  apply set_center_store; [exact Hlt | exact H2].
Qed.

Lemma step_store (st : state) :
  store_ok st -> store_ok (fst (step S r st)).
Proof.
  intros Hst. unfold step.
  set (st1 := if (_ <? _)%nat then _ else st).
  assert (H1 : store_ok st1).
  { subst st1. destruct (_ <? _)%nat; [apply sample_points_store |]; assumption. }
  clearbody st1.
  destruct (max_f_eval r <=? f_evals st1)%nat; simpl; [assumption |].
  destruct (fit S _) as [m |]; simpl.
  - destruct (solve S m _ _ _) as [[[xc mc] mx] |].
    + apply try_candidate_store. apply (store_ok_frame st1); auto.
    + assert (H2 : store_ok (set_solve_failures (Datatypes.S (solve_failures st1)) st1))
        by (apply (store_ok_frame st1); auto).
      destruct (cap_reached S _); simpl; [exact H2 |].
      destruct (best_feasible _) as [e |]; simpl.
      * apply try_candidate_store. exact H2.
      * apply record_iteration_store. eapply store_ok_frame; [| | exact H2]; reflexivity.
  - apply record_iteration_store, sample_points_store, H1.
Qed.

Lemma iterate_store (n : nat) (st : state) :
  store_ok st -> store_ok (fst (iterate S r n st)).
Proof.
  revert st. induction n as [| n IH]; intros st Hst; simpl; [assumption |].
  destruct (max_f_eval r <=? f_evals st)%nat; simpl; [assumption |].
  destruct (Qlt_b _ _); simpl; [assumption |].
  destruct (stagnated S _ _); simpl; [assumption |].
  pose proof (step_store st Hst) as Hstep.
  destruct (step S r st) as [st' [s |]]; simpl in *; [assumption |].
  apply IH. assumption.
Qed.

Lemma init_state_store : store_ok (init_state S x0 r).
Proof.
  assert (Hnil : forall st, f_store st = [] -> store_ok st).
  { intros st Hst. unfold store_ok. rewrite Hst. split; [apply non_increasing_nil |].
    intros v Hv. apply elem_of_nil in Hv. contradiction. }
  unfold init_state.
  match goal with |- context [observe r ?c ?s] =>
    destruct (observe r c s) as [[e st1] |] eqn:Hobs end.
  - apply Hnil. simpl. unfold observe in Hobs.
    destruct (known _ _); [inversion Hobs; subst; reflexivity |].
    destruct (_ <=? _)%nat; [discriminate |]. inversion Hobs; subst; reflexivity.
  - apply Hnil. reflexivity.
Qed.

(** *** Termination *)

(** The loop is total; only the failure cap makes it raise. *)
Lemma optimise_outcome :
  match optimise S x0 r with
  | Return out => out = report (fst (run S x0 r))
  | Raise e => e = SolveError /\ snd (run S x0 r) = Aborted
  end.
Proof.
  unfold optimise. destruct (snd (run S x0 r)); auto.
Qed.

Lemma step_not_aborted (st : state) :
  h_solve_failure_cap (hyper S) = None -> snd (step S r st) <> Some Aborted.
Proof.
  intros Hcap. unfold step.
  assert (Htry : forall xc pred st', snd (try_candidate S r xc pred st') <> Some Aborted).
  { intros xc pred st'. unfold try_candidate.
    destruct (observe r xc st') as [[e st1] |]; simpl; discriminate. }
  destruct (_ <=? _)%nat; simpl; [discriminate |].
  destruct (fit S _) as [m |]; simpl; [| discriminate].
  destruct (solve S m _ _ _) as [[[xc mc] mx] |]; [apply Htry |].
  unfold cap_reached. rewrite Hcap.
  destruct (best_feasible _); simpl; [apply Htry | discriminate].
Qed.

Lemma iterate_not_aborted (n : nat) (st : state) :
  h_solve_failure_cap (hyper S) = None -> snd (iterate S r n st) <> Aborted.
Proof.
  intros Hcap. revert st. induction n as [| n IH]; intros st; simpl; [discriminate |].
  destruct (_ <=? _)%nat; simpl; [discriminate |].
  destruct (Qlt_b _ _); simpl; [discriminate |].
  destruct (stagnated S _ _); simpl; [discriminate |].
  pose proof (step_not_aborted st Hcap) as Hstep.
  destruct (step S r st) as [st' [s |]]; simpl in *; [congruence | apply IH].
Qed.

(** Without a failure cap [optimise] always returns its report. *)
Lemma optimise_returns :
  h_solve_failure_cap (hyper S) = None ->
  optimise S x0 r = Return (report (fst (run S x0 r))).
Proof.
  intros Hcap. unfold optimise.
  pose proof (iterate_not_aborted (h_max_iter (hyper S)) (init_state S x0 r) Hcap) as Hn.
  fold (run S x0 r) in Hn.
  destruct (snd (run S x0 r)); congruence.
Qed.

End LoopFacts.

Section FacadeFacts.

Context {Solver : Type}.
Variable assign_solver : string -> Solver.
Variable ut_rescale_radius : Q -> Bounds -> Q.
Variable implementation : variant -> Point -> run_args -> outcome output_dict.

Local Abbreviation init := (__init__ assign_solver).
Local Abbreviation run := (run_optimiser ut_rescale_radius implementation).

(** *** Construction *)

(** The instance [__init__] builds once every check has passed. *)
Lemma init_in_domain (a : kwargs) :
  strings_in_domain a = true ->
  init a =
    (_ <- automatic_params_block (arg_automatic_params a) ;;
     Return {| x0 := arg_x0 a;
               init_radius := arg_init_radius a;
               max_iter := arg_max_iter a;
               tolerance := arg_tolerance a;
               beta_inc := arg_beta_inc a;
               beta_red := arg_beta_red a;
               eta1 := arg_eta1 a;
               eta2 := arg_eta2 a;
               method := arg_method a;
               N_min_samples := arg_N_min_samples a;
               print_status := arg_print_status a;
               constr_handling := arg_constr_handling a;
               sampling := arg_sampling a;
               explore := arg_explore a;
               sampling_trust_ratio := arg_sampling_trust_ratio a;
               min_radius := arg_min_radius a;
               min_restart_radius := arg_min_restart_radius a;
               conv_radius := arg_conv_radius a;
               no_x0 := arg_no_x0 a;
               rescale_radius := arg_rescale_radius a;
               solver_to_use := assign_solver (arg_solver_to_use a);
               automatic_params := arg_automatic_params a |}).
Proof.
  unfold strings_in_domain, __init__. intros Hdom.
  repeat (apply andb_true_iff in Hdom as [Hdom ?]).
  repeat match goal with Hin : py_in _ _ = true |- _ => rewrite Hin; clear Hin end.
  reflexivity.
Qed.

Lemma init_out_of_domain (a : kwargs) :
  strings_in_domain a = false -> exists msg, init a = Raise (ValueError msg).
Proof.
  unfold strings_in_domain, __init__. intros Hdom.
  destruct (py_in (arg_method a) _); cbn [andb negb] in *; [| eauto].
  destruct (py_in (arg_constr_handling a) _); cbn [andb negb] in *; [| eauto].
  destruct (py_in (arg_sampling a) _); cbn [andb negb] in *; [| eauto].
  destruct (py_in (arg_explore a) _); cbn [andb negb] in *; [| eauto].
  destruct (py_in (arg_solver_to_use a) _); cbn [andb negb] in *; [discriminate | eauto].
Qed.

(** The configuration block raises nothing but [KeyError]. *)
Lemma automatic_params_block_outcome (ap : option (gmap string pyval)) :
  automatic_params_block ap = Return tt
  \/ exists key, automatic_params_block ap = Raise (KeyError key).
Proof.
  unfold automatic_params_block. destruct ap as [d |]; [| auto].
  destruct (dict_truthy (Some d)); [| auto].
  unfold subscript.
  destruct (d !! "exp"); simpl; [| eauto].
  destruct (d !! "safety"); simpl; [| eauto].
  destruct (d !! "convex"); simpl; eauto.
Qed.

Lemma automatic_params_block_keys (d : gmap string pyval) :
  is_Some (d !! "exp") -> is_Some (d !! "safety") -> is_Some (d !! "convex") ->
  automatic_params_block (Some d) = Return tt.
Proof.
  intros [e He] [s Hs] [c Hc]. unfold automatic_params_block, subscript.
  rewrite He, Hs, Hc. simpl. destruct (negb _); reflexivity.
Qed.

(** A constructed instance carries the arguments it was given. *)
Lemma init_Return (a : kwargs) (self : CUATRO Solver) :
  init a = Return self ->
  strings_in_domain a = true
  /\ x0 self = arg_x0 a
  /\ sampling self = arg_sampling a
  /\ explore self = arg_explore a
  /\ rescale_radius self = arg_rescale_radius a.
Proof.
  intros Hinit.
  destruct (strings_in_domain a) eqn:Hdom.
  - rewrite (init_in_domain a Hdom) in Hinit.
    destruct (automatic_params_block _); simpl in Hinit; [| discriminate].
    inversion Hinit; subst; simpl. auto.
  - destruct (init_out_of_domain a Hdom) as [msg Hmsg]. congruence.
Qed.

Lemma py_in_sampling (s : string) :
  py_in s ["base"; "g"] = true -> s = "base" \/ s = "g".
Proof.
  unfold py_in. simpl. intros Hin.
  repeat (apply orb_true_iff in Hin as [Hin | Hin];
          [apply bool_decide_eq_true in Hin; auto |]).
  discriminate.
Qed.

Lemma py_in_explore (e : option string) :
  py_in e [None; Some "feasible_sampling"; Some "exploit_explore";
           Some "sampling_region"; Some "TIS"; Some "TIP"] = true ->
  e = None \/ e = Some "feasible_sampling" \/ e = Some "exploit_explore"
  \/ e = Some "sampling_region" \/ e = Some "TIS" \/ e = Some "TIP".
Proof.
  unfold py_in. simpl. intros Hin.
  repeat (apply orb_true_iff in Hin as [Hin | Hin];
          [apply bool_decide_eq_true in Hin; tauto |]).
  discriminate.
Qed.

(** *** Dispatch *)

Lemma rescale_step_frame (self : CUATRO Solver) (r : run_args) :
  rescale_step ut_rescale_radius self r
  = set_init_radius (init_radius (rescale_step ut_rescale_radius self r)) self.
Proof.
  unfold rescale_step. destruct self; simpl.
  destruct (bounds r); [| reflexivity].
  match goal with |- context [if ?b then _ else _] => destruct b end; reflexivity.
Qed.

Lemma self_after_run (self : CUATRO Solver) (r : run_args) :
  self_after (run self r) = rescale_step ut_rescale_radius self r.
Proof.
  unfold run_optimiser, raising, run_variant.
  repeat match goal with
         | |- context [if ?b then _ else _] => destruct b
         end; reflexivity.
Qed.

(** What a call does besides updating the instance depends on [x0],
    [sampling] and [explore] only. *)
Lemma run_depends_on (self1 self2 : CUATRO Solver) (r : run_args) :
  x0 self1 = x0 self2 ->
  sampling self1 = sampling self2 ->
  explore self1 = explore self2 ->
  stdout (run self1 r) = stdout (run self2 r)
  /\ invoked (run self1 r) = invoked (run self2 r)
  /\ output (run self1 r) = output (run self2 r).
Proof.
  intros Hx Hs He.
  unfold run_optimiser, raising, run_variant.
  rewrite (rescale_step_frame self1), (rescale_step_frame self2). simpl.
  rewrite Hx, Hs, He.
  repeat match goal with
         | |- context [if ?b then _ else _] => destruct b
         end; auto.
Qed.


Lemma strings_in_domain_modes (a : kwargs) :
  strings_in_domain a = true ->
  (arg_sampling a = "base" \/ arg_sampling a = "g")
  /\ (arg_explore a = None \/ arg_explore a = Some "feasible_sampling"
      \/ arg_explore a = Some "exploit_explore"
      \/ arg_explore a = Some "sampling_region"
      \/ arg_explore a = Some "TIS" \/ arg_explore a = Some "TIP").
Proof.
  unfold strings_in_domain. intros Hdom.
  repeat (apply andb_true_iff in Hdom as [Hdom ?]).
  split; [apply py_in_sampling | apply py_in_explore]; assumption.
Qed.

(** *** The claims about the facade *)

(** C6: [__init__] raises a [ValueError] whenever one of the five
    string-valued arguments ([method], [constr_handling], [sampling],
    [explore], [solver_to_use]) lies outside its enumerated domain, so the
    error belongs to construction and not to a later call; when all five
    lie in their domains, [__init__] raises no [ValueError]. *)
Theorem string_arguments_checked_eagerly (a : kwargs) :
  (strings_in_domain a = false -> exists msg, init a = Raise (ValueError msg))
  /\ (strings_in_domain a = true -> forall msg, init a <> Raise (ValueError msg)).
Proof.
  split.
  - apply init_out_of_domain.
  - intros Hdom msg. rewrite (init_in_domain a Hdom).
    destruct (automatic_params_block_outcome (arg_automatic_params a)) as [Hb | [key Hb]];
      rewrite Hb; simpl; discriminate.
Qed.

(** C1 (amended): with [explore] not [None] and [sampling] not 'base',
    construction raises a [ValueError] when [sampling] is not 'g' either;
    with [sampling] 'g' construction does not look at the pair, and on
    every instance it returns, every call of [run_optimiser] raises the
    explore/sampling [ValueError] without instantiating or running any
    variant, hence before any function evaluation. *)
Theorem explore_mismatch_raised_by_run (a : kwargs) :
  arg_explore a <> None -> arg_sampling a <> "base" ->
  (arg_sampling a <> "g" -> exists msg, init a = Raise (ValueError msg))
  /\ (forall self, init a = Return self ->
        arg_sampling a = "g"
        /\ forall r, output (run self r) = Raise (ValueError mcd_message)
                     /\ invoked (run self r) = None
                     /\ stdout (run self r) = []).
Proof.
  intros He Hs. split.
  - intros Hg. apply init_out_of_domain.
    destruct (strings_in_domain a) eqn:Hdom; [| reflexivity].
    apply strings_in_domain_modes in Hdom as [[Hb | Hb] _]; contradiction.
  - intros self Hinit.
    apply init_Return in Hinit as (Hdom & _ & Hsam & Hexp & _).
    apply strings_in_domain_modes in Hdom as [[Hb | Hg] _]; [contradiction |].
    split; [exact Hg |]. intros r.
    unfold run_optimiser, raising, run_variant.
    rewrite rescale_step_frame. simpl.
    rewrite Hsam, Hg, Hexp.
    destruct (arg_explore a); [| contradiction].
    simpl. auto.
Qed.

(** C2 (amended): construction checks no numeric argument: whenever the
    five string-valued arguments are in their domains and the
    [automatic_params] block finds its keys, construction succeeds for
    every value of [init_radius], [max_iter], [tolerance], [beta_inc],
    [beta_red], [eta1], [eta2] and [N_min_samples], and the instance holds
    each of them unchanged. *)
Theorem numeric_arguments_stored_unchecked (a : kwargs) :
  strings_in_domain a = true ->
  automatic_params_block (arg_automatic_params a) = Return tt ->
  exists self,
    init a = Return self
    /\ init_radius self = arg_init_radius a
    /\ max_iter self = arg_max_iter a
    /\ tolerance self = arg_tolerance a
    /\ beta_inc self = arg_beta_inc a
    /\ beta_red self = arg_beta_red a
    /\ eta1 self = arg_eta1 a
    /\ eta2 self = arg_eta2 a
    /\ N_min_samples self = arg_N_min_samples a.
Proof.
  intros Hdom Hblock. rewrite (init_in_domain a Hdom), Hblock. simpl.
  eexists. split; [reflexivity |]. simpl. repeat split.
Qed.

(** C3: two instances constructed with the same [x0], [sampling] and
    [explore], whatever their other constructor arguments, give the same
    output (and print the same, through the same variant) when
    [run_optimiser] is called with identical arguments. *)
Theorem other_parameters_do_not_reach_the_variant
    (a1 a2 : kwargs) (self1 self2 : CUATRO Solver) (r : run_args) :
  init a1 = Return self1 -> init a2 = Return self2 ->
  arg_x0 a1 = arg_x0 a2 ->
  arg_sampling a1 = arg_sampling a2 ->
  arg_explore a1 = arg_explore a2 ->
  output (run self1 r) = output (run self2 r)
  /\ invoked (run self1 r) = invoked (run self2 r)
  /\ stdout (run self1 r) = stdout (run self2 r).
Proof.
  intros H1 H2 Hx Hs He.
  apply init_Return in H1 as (_ & Hx1 & Hs1 & He1 & _).
  apply init_Return in H2 as (_ & Hx2 & Hs2 & He2 & _).
  destruct (run_depends_on self1 self2 r) as (Ho & Hi & Hout); try congruence.
  auto.
Qed.

(** C7: on a validly constructed instance [run_optimiser] either raises
    the explore/sampling [ValueError] (sampling 'g' with a heuristic), or
    runs exactly the variant that the (sampling, explore) pair stands for,
    built from [x0] and called with the arguments [run_optimiser]
    received, and returns that variant's result unchanged. *)
Theorem run_optimiser_selects_variant
    (a : kwargs) (self : CUATRO Solver) (r : run_args) :
  init a = Return self ->
  (sampling self = "g" /\ explore self <> None
   /\ output (run self r) = Raise (ValueError mcd_message)
   /\ invoked (run self r) = None)
  \/ (exists v, select_variant (sampling self) (explore self) = Some v
        /\ invoked (run self r) = Some v
        /\ output (run self r) = implementation v (x0 self) r).
Proof.
  intros Hinit.
  apply init_Return in Hinit as (Hdom & _ & Hsam & Hexp & _).
  apply strings_in_domain_modes in Hdom as [Hs He].
  rewrite <- Hsam in Hs. rewrite <- Hexp in He. clear Hsam Hexp a.
  unfold run_optimiser, raising, run_variant.
  rewrite rescale_step_frame. simpl.
  destruct Hs as [Hs | Hs]; rewrite Hs;
    destruct He as [He | [He | [He | [He | [He | He]]]]]; rewrite He;
    first [ right; eexists; repeat split; reflexivity
          | left; repeat split; discriminate ].
Qed.

(** C8 (amended): a call of [run_optimiser] leaves every attribute of the
    instance other than [init_radius] unchanged; [init_radius] is
    unchanged too when [rescale_radius] is false or [bounds] is [None] or
    empty; with [rescale_radius] true and non-empty [bounds] the call
    overwrites [init_radius] with the rescaled radius. *)
Theorem run_optimiser_touches_init_radius_only (self : CUATRO Solver) (r : run_args) :
  self_after (run self r)
    = set_init_radius (init_radius (self_after (run self r))) self
  /\ (rescale_radius self && list_truthy (bounds r) = false ->
      self_after (run self r) = self)
  /\ (forall b, rescale_radius self = true -> bounds r = Some b -> b <> [] ->
      init_radius (self_after (run self r))
        = ut_rescale_radius (init_radius self) b).
Proof.
  rewrite self_after_run. split; [apply rescale_step_frame |].
  unfold rescale_step. split.
  - intros Hoff. destruct (bounds r); [| reflexivity]. rewrite Hoff. reflexivity.
  - intros b Hon Hb Hne. rewrite Hb, Hon.
    destruct b; [contradiction |]. reflexivity.
Qed.

(** C9: for every [automatic_params] dictionary with the keys 'exp',
    'safety' and 'convex', construction does what it does with
    [automatic_params=None] (it succeeds whenever the string-valued
    arguments are in their domains), and the instance differs from that
    one in the attribute [automatic_params] alone. *)
Theorem automatic_params_block_is_noop (a : kwargs) (d : gmap string pyval) :
  is_Some (d !! "exp") -> is_Some (d !! "safety") -> is_Some (d !! "convex") ->
  init (with_automatic_params (Some d) a)
    = (self <- init (with_automatic_params None a) ;;
       Return (set_automatic_params (Some d) self))
  /\ (strings_in_domain a = true ->
      exists self, init (with_automatic_params (Some d) a) = Return self).
Proof.
  intros He Hs Hc.
  pose proof (automatic_params_block_keys d He Hs Hc) as Hblock.
  assert (Heq : init (with_automatic_params (Some d) a)
                = (self <- init (with_automatic_params None a) ;;
                   Return (set_automatic_params (Some d) self))).
  { unfold __init__. simpl arg_method. simpl arg_constr_handling.
    simpl arg_sampling. simpl arg_explore. simpl arg_solver_to_use.
    repeat match goal with
           | |- context [if negb (py_in ?x ?l) then _ else _] =>
               destruct (py_in x l); cbn [negb]; [| reflexivity]
           end.
    simpl arg_automatic_params. rewrite Hblock. reflexivity. }
  split; [exact Heq |].
  intros Hdom. rewrite Heq.
  rewrite (init_in_domain (with_automatic_params None a)) by exact Hdom.
  simpl. eauto.
Qed.

End FacadeFacts.

(** *** The claims about the loop *)

(** C4: the evaluation count that [optimise] reports never exceeds
    [max_f_eval]; the loop, once the budget is exhausted, stops where it
    stands and reports the incumbent it has. *)
Theorem f_evals_never_exceeds_budget
    (S : TrustRegionLoop.Strategy) (x0 : Point) (r : run_args) :
  (TrustRegionLoop.f_evals (fst (TrustRegionLoop.run S x0 r)) <= max_f_eval r)%nat
  /\ match TrustRegionLoop.optimise S x0 r with
     | Return out =>
         (out_f_evals out <= max_f_eval r)%nat
         /\ out = TrustRegionLoop.report (fst (TrustRegionLoop.run S x0 r))
     | Raise e => e = SolveError
     end
  /\ (forall n st,
        (max_f_eval r <= TrustRegionLoop.f_evals st)%nat ->
        fst (TrustRegionLoop.iterate S r n st) = st).
Proof.
  assert (Hrun : within_budget r (fst (TrustRegionLoop.run S x0 r))).
  { apply iterate_budget, init_state_budget. }
  split; [exact Hrun |]. split.
  - pose proof (optimise_outcome S x0 r) as Hout.
    destruct (TrustRegionLoop.optimise S x0 r) as [out | e].
    + subst out. split; [exact Hrun | reflexivity].
    + tauto.
  - intros n st Hex. apply iterate_exhausted. now apply Nat.leb_le.
Qed.

(** C5: the [f_store] that [optimise] reports is non-increasing from one
    iteration to the next, for every strategy, starting point and
    arguments. *)
Theorem f_store_is_non_increasing
    (S : TrustRegionLoop.Strategy) (x0 : Point) (r : run_args) :
  TrustRegionLoop.non_increasing
    (TrustRegionLoop.f_store (fst (TrustRegionLoop.run S x0 r)))
  /\ match TrustRegionLoop.optimise S x0 r with
     | Return out =>
         TrustRegionLoop.non_increasing (out_f_store out)
         /\ out = TrustRegionLoop.report (fst (TrustRegionLoop.run S x0 r))
     | Raise e => e = SolveError
     end.
Proof.
  assert (Hrun : store_ok (fst (TrustRegionLoop.run S x0 r))).
  { apply iterate_store, init_state_store. }
  destruct Hrun as [Hmono _]. split; [exact Hmono |].
  pose proof (optimise_outcome S x0 r) as Hout.
  destruct (TrustRegionLoop.optimise S x0 r) as [out | e].
  - subst out. split; [exact Hmono | reflexivity].
  - tauto.
Qed.

(** *** Reproducibility *)

Section SamplerFacts.

Import TrustRegionLoop.

Variable S : Strategy.
Variables sel1 sel2 : Z -> Point -> Q -> option Bounds -> nat -> list Point -> list Point.
Hypothesis sel_agree :
  forall seed c rad b count drawn,
    sel1 seed c rad b count drawn = sel2 seed c rad b count drawn.
Variable r : run_args.





End SamplerFacts.



(** Without a deterministic sampler the statement fails: with the drifting
    sampler the second call records other points than the first. *)
Lemma drifting_sampler_is_not_reproducible :
  exists self,
    __init__ Demo.assign_solver (default_kwargs [5%Q]) = Return self
    /\ sampling self = "g"
    /\ match
         output (fst (run_in_world Demo.rescale_radius (fun _ => Demo.drifting)
                        0%nat self (Demo.args None 20))),
         output (fst (run_in_world Demo.rescale_radius (fun _ => Demo.drifting)
                        1%nat self (Demo.args None 20)))
       with
       | Return o1, Return o2 =>
           snd (run_in_world Demo.rescale_radius (fun _ => Demo.drifting)
                  0%nat self (Demo.args None 20)) = 1%nat
           /\ out_f_evals o1 = 7%nat /\ out_f_evals o2 = 7%nat
           /\ out_x_store o1 <> out_x_store o2
       | _, _ => False
       end.
Proof.
  eexists. split; [reflexivity |]. split; [reflexivity |].
  vm_compute. repeat split. discriminate.
Qed.

(** *** Concrete runs *)

(** The loop on [f(x) = x^2] from [x = 5]: a budget of three stops it after
    three evaluations; a generous budget lets it record four iterations. *)
Example demo_run_stops_at_budget :
  TrustRegionLoop.f_evals
    (fst (TrustRegionLoop.run Demo.strategy [5%Q] (Demo.args None 3))) = 3%nat
  /\ snd (TrustRegionLoop.run Demo.strategy [5%Q] (Demo.args None 3))
     = TrustRegionLoop.BudgetExhausted.
Proof. split; vm_compute; reflexivity. Qed.

Example demo_run_records :
  TrustRegionLoop.f_evals
    (fst (TrustRegionLoop.run Demo.strategy [5%Q] (Demo.args None 100))) = 7%nat
  /\ length (TrustRegionLoop.f_store
               (fst (TrustRegionLoop.run Demo.strategy [5%Q] (Demo.args None 100))))
     = 4%nat
  /\ is_Return (TrustRegionLoop.optimise Demo.strategy [5%Q] (Demo.args None 100))
     = true.
Proof. repeat split; vm_compute; reflexivity. Qed.

(** C1, as stated, fails: with sampling 'g' and explore 'TIS' construction
    succeeds. *)
Lemma construction_accepts_g_with_heuristic :
  arg_explore (with_modes "g" (Some "TIS") false (default_kwargs Demo.start)) <> None
  /\ arg_sampling (with_modes "g" (Some "TIS") false (default_kwargs Demo.start)) <> "base"
  /\ exists self,
       __init__ Demo.assign_solver
         (with_modes "g" (Some "TIS") false (default_kwargs Demo.start)) = Return self
       /\ sampling self = "g" /\ explore self = Some "TIS".
Proof.
  split; [discriminate |]. split; [discriminate |].
  eexists. split; [reflexivity |]. split; reflexivity.
Qed.

Lemma explore_mismatch_raised_by_run_witness :
  exists self,
    __init__ Demo.assign_solver
      (with_modes "g" (Some "TIS") false (default_kwargs Demo.start)) = Return self
    /\ output (run_optimiser Demo.rescale_radius Demo.implementation self
                 (Demo.args None 20))
       = Raise (ValueError mcd_message).
Proof.
  eexists. split; [reflexivity |].
  apply (proj2 (explore_mismatch_raised_by_run
                  Demo.assign_solver Demo.rescale_radius Demo.implementation
                  (with_modes "g" (Some "TIS") false (default_kwargs Demo.start))
                  ltac:(discriminate) ltac:(discriminate))
               _ eq_refl).
Defined.

(** C2, as stated, fails: every numeric argument outside its domain, and
    construction succeeds with the values stored as given. *)
Lemma construction_accepts_bad_numerics :
  (arg_init_radius Demo.bad_numerics <= 0)%Q
  /\ (arg_max_iter Demo.bad_numerics <= 0)%Z
  /\ (arg_tolerance Demo.bad_numerics <= 0)%Q
  /\ (arg_beta_inc Demo.bad_numerics <= 1)%Q
  /\ (1 <= arg_beta_red Demo.bad_numerics)%Q
  /\ (arg_eta2 Demo.bad_numerics <= arg_eta1 Demo.bad_numerics)%Q
  /\ (arg_N_min_samples Demo.bad_numerics < 1)%Z
  /\ numerics_in_domain Demo.bad_numerics = false
  /\ exists self,
       __init__ Demo.assign_solver Demo.bad_numerics = Return self
       /\ init_radius self = (-1)%Q /\ max_iter self = 0%Z
       /\ N_min_samples self = 0%Z.
Proof.
  repeat (split; [vm_compute; congruence |]).
  eexists. split; [reflexivity |]. repeat split.
Qed.

Lemma numeric_arguments_stored_unchecked_witness :
  exists self,
    __init__ Demo.assign_solver Demo.bad_numerics = Return self
    /\ init_radius self = arg_init_radius Demo.bad_numerics
    /\ max_iter self = arg_max_iter Demo.bad_numerics
    /\ tolerance self = arg_tolerance Demo.bad_numerics
    /\ beta_inc self = arg_beta_inc Demo.bad_numerics
    /\ beta_red self = arg_beta_red Demo.bad_numerics
    /\ eta1 self = arg_eta1 Demo.bad_numerics
    /\ eta2 self = arg_eta2 Demo.bad_numerics
    /\ N_min_samples self = arg_N_min_samples Demo.bad_numerics.
Proof.
  apply (numeric_arguments_stored_unchecked Demo.assign_solver Demo.bad_numerics);
    reflexivity.
Defined.

Lemma other_parameters_do_not_reach_the_variant_witness :
  exists self1 self2,
    __init__ Demo.assign_solver (default_kwargs Demo.start) = Return self1
    /\ __init__ Demo.assign_solver Demo.bad_numerics = Return self2
    /\ output (run_optimiser Demo.rescale_radius Demo.implementation self1
                 (Demo.args None 20))
       = output (run_optimiser Demo.rescale_radius Demo.implementation self2
                   (Demo.args None 20)).
Proof.
  eexists. eexists. split; [reflexivity |]. split; [reflexivity |].
  apply (proj1 (other_parameters_do_not_reach_the_variant
                  Demo.assign_solver Demo.rescale_radius Demo.implementation
                  (default_kwargs Demo.start) Demo.bad_numerics _ _ (Demo.args None 20)
                  eq_refl eq_refl eq_refl eq_refl eq_refl)).
Defined.

Lemma run_optimiser_selects_variant_witness :
  exists self,
    __init__ Demo.assign_solver
      (with_modes "base" (Some "TIP") false (default_kwargs Demo.start)) = Return self
    /\ ((sampling self = "g" /\ explore self <> None
         /\ output (run_optimiser Demo.rescale_radius Demo.implementation self
                      (Demo.args None 20))
            = Raise (ValueError mcd_message)
         /\ invoked (run_optimiser Demo.rescale_radius Demo.implementation self
                       (Demo.args None 20)) = None)
        \/ (exists v, select_variant (sampling self) (explore self) = Some v
              /\ invoked (run_optimiser Demo.rescale_radius Demo.implementation self
                            (Demo.args None 20)) = Some v
              /\ output (run_optimiser Demo.rescale_radius Demo.implementation self
                           (Demo.args None 20))
                 = Demo.implementation v (x0 self) (Demo.args None 20))).
Proof.
  eexists. split; [reflexivity |].
  apply (run_optimiser_selects_variant
           Demo.assign_solver Demo.rescale_radius Demo.implementation
           (with_modes "base" (Some "TIP") false (default_kwargs Demo.start)) _
           (Demo.args None 20) eq_refl).
Defined.

(** C8, as stated, fails: with [rescale_radius=True] and bounds supplied a
    call changes [init_radius], and a second call starts from the changed
    value. *)
Lemma run_optimiser_rescales_init_radius :
  exists self,
    __init__ Demo.assign_solver
      (with_modes "g" None true (default_kwargs Demo.start)) = Return self
    /\ init_radius self = 1%Q
    /\ init_radius
         (self_after
            (run_optimiser Demo.rescale_radius Demo.implementation self
               (Demo.args (Some [(0%Q, 10%Q)]) 20))) = 10%Q
    /\ init_radius
         (self_after
            (run_optimiser Demo.rescale_radius Demo.implementation
               (self_after
                  (run_optimiser Demo.rescale_radius Demo.implementation self
                     (Demo.args (Some [(0%Q, 10%Q)]) 20)))
               (Demo.args (Some [(0%Q, 10%Q)]) 20))) = 100%Q.
Proof.
  eexists. split; [reflexivity |]. repeat split; vm_compute; reflexivity.
Qed.

Lemma automatic_params_block_is_noop_witness :
  __init__ Demo.assign_solver
    (with_automatic_params (Some Demo.tuning) (default_kwargs Demo.start))
  = (self <- __init__ Demo.assign_solver
               (with_automatic_params None (default_kwargs Demo.start)) ;;
     Return (set_automatic_params (Some Demo.tuning) self)).
Proof.
  apply (proj1 (automatic_params_block_is_noop
                  Demo.assign_solver (default_kwargs Demo.start) Demo.tuning
                  ltac:(vm_compute; eauto) ltac:(vm_compute; eauto)
                  ltac:(vm_compute; eauto))).
Defined.


(** * Further behaviour of the facade *)

Section FacadeBehaviour.

Context {Solver : Type}.
Variable assign_solver : string -> Solver.
Variable ut_rescale_radius : Q -> Bounds -> Q.
Variable implementation : variant -> Point -> run_args -> outcome output_dict.

Local Abbreviation init := (__init__ assign_solver).
Local Abbreviation run := (run_optimiser ut_rescale_radius implementation).

(** *** Which constructions succeed, and how the others fail *)

Lemma automatic_params_block_accepted (ap : option (gmap string pyval)) :
  is_Return (automatic_params_block ap) = automatic_params_accepted ap.
Proof.
  unfold automatic_params_block, automatic_params_accepted, has_key, subscript.
  destruct ap as [d |]; [| reflexivity].
  destruct (dict_truthy (Some d)); simpl; [| reflexivity].
  destruct (d !! "exp"); simpl; [| reflexivity].
  destruct (d !! "safety"); simpl; [| reflexivity].
  destruct (d !! "convex"); reflexivity.
Qed.

(** X1: construction returns an instance exactly when the five
    string-valued arguments are in their domains and [automatic_params] is
    [None], empty, or has the keys 'exp', 'safety' and 'convex'. *)
Theorem construction_succeeds_exactly_when (a : kwargs) :
  is_Return (init a)
  = strings_in_domain a && automatic_params_accepted (arg_automatic_params a).
Proof.
  destruct (strings_in_domain a) eqn:Hdom; simpl.
  - rewrite (init_in_domain assign_solver a Hdom).
    rewrite <- automatic_params_block_accepted.
    destruct (automatic_params_block _); reflexivity.
  - destruct (init_out_of_domain assign_solver a Hdom) as [msg ->]. reflexivity.
Qed.

(** X2: with the string-valued arguments in their domains and a non-empty
    [automatic_params], the first of the keys 'exp', 'safety', 'convex'
    that is missing raises [KeyError] with that key. *)
Theorem first_missing_key_raises (a : kwargs) (d : gmap string pyval) :
  strings_in_domain a = true ->
  arg_automatic_params a = Some d ->
  d <> ∅ ->
  (d !! "exp" = None -> init a = Raise (KeyError "exp"))
  /\ (has_key d "exp" = true -> d !! "safety" = None ->
      init a = Raise (KeyError "safety"))
  /\ (has_key d "exp" = true -> has_key d "safety" = true ->
      d !! "convex" = None -> init a = Raise (KeyError "convex")).
Proof.
  intros Hdom Hap Hne.
  rewrite (init_in_domain assign_solver a Hdom), Hap.
  unfold automatic_params_block, dict_truthy, subscript, has_key.
  rewrite bool_decide_eq_false_2 by exact Hne. simpl.
  repeat split.
  - intros ->. reflexivity.
  - destruct (d !! "exp"); [| discriminate]. intros _ ->. reflexivity.
  - destruct (d !! "exp"); [| discriminate].
    destruct (d !! "safety"); [| discriminate]. intros _ _ ->. reflexivity.
Qed.

(** X3: an empty [automatic_params] dict is accepted without any key
    lookup: construction does what it does with [None], and the instance
    keeps the empty dict. *)
Theorem empty_automatic_params_like_None (a : kwargs) :
  init (with_automatic_params (Some ∅) a)
  = (self <- init (with_automatic_params None a) ;;
     Return (set_automatic_params (Some ∅) self)).
Proof.
  unfold __init__. simpl arg_method. simpl arg_constr_handling.
  simpl arg_sampling. simpl arg_explore. simpl arg_solver_to_use.
  repeat match goal with
         | |- context [if negb (py_in ?x ?l) then _ else _] =>
             destruct (py_in x l); cbn [negb]; [| reflexivity]
         end.
  reflexivity.
Qed.

(** X4: whether construction fails, and with which exception, depends on
    the five string-valued arguments and [automatic_params] only: [x0],
    the numeric arguments and the flags play no part. *)
Theorem construction_outcome_depends_on_checked_arguments (a1 a2 : kwargs) :
  arg_method a1 = arg_method a2 ->
  arg_constr_handling a1 = arg_constr_handling a2 ->
  arg_sampling a1 = arg_sampling a2 ->
  arg_explore a1 = arg_explore a2 ->
  arg_solver_to_use a1 = arg_solver_to_use a2 ->
  arg_automatic_params a1 = arg_automatic_params a2 ->
  match init a1, init a2 with
  | Return _, Return _ => True
  | Raise e1, Raise e2 => e1 = e2
  | _, _ => False
  end.
Proof.
  intros Hm Hc Hs He Hv Hap. unfold __init__.
  rewrite Hm, Hc, Hs, He, Hv, Hap.
  repeat match goal with
         | |- context [if negb (py_in ?x ?l) then _ else _] =>
             destruct (py_in x l); cbn [negb]; [| reflexivity]
         end.
  destruct (automatic_params_block _); simpl; auto.
Qed.

(** *** What [run_optimiser] does for any attribute values *)

(** Attributes are public: the facts below hold for every instance, also
    one whose [sampling] or [explore] was assigned after construction. *)
Lemma invoked_select_variant (self : CUATRO Solver) (r : run_args) :
  invoked (run self r) = select_variant (sampling self) (explore self).
Proof.
  unfold run_optimiser, raising, run_variant, select_variant.
  rewrite rescale_step_frame. simpl.
  unfold str_eq, explore_is, is_None.
  destruct (explore self) as [h |]; repeat case_bool_decide;
    simpl; try reflexivity; congruence.
Qed.

Lemma select_variant_configuration (s : string) (e : option string) (v : variant) :
  select_variant s e = Some v -> (s, e) = configuration_of v.
Proof.
  unfold select_variant.
  destruct e as [h |]; repeat case_bool_decide; intros Hv;
    inversion Hv; subst; reflexivity.
Qed.

(** X5: [run_optimiser] has no final [else]: when [sampling] is not 'g',
    the pair is not ('base', None) and [explore] is none of the five
    heuristics, no variant runs and [return output] raises
    [UnboundLocalError]; in every other case that does not happen. *)
Theorem unbound_output_exactly_when (self : CUATRO Solver) (r : run_args) :
  (invoked (run self r) = None
   /\ output (run self r) = Raise (UnboundLocalError "output"))
  <-> (sampling self <> "g"
       /\ ~ (sampling self = "base" /\ explore self = None)
       /\ py_in (explore self) heuristics = false).
Proof.
  unfold run_optimiser, raising, run_variant, py_in, heuristics.
  rewrite rescale_step_frame. simpl.
  unfold str_eq, explore_is, is_None.
  destruct (explore self) as [h |]; repeat case_bool_decide; simpl;
    split; intros Hc; repeat split; try tauto; try congruence;
    try (intros [? ?]; congruence);
    try (destruct Hc as [Hc1 Hc2]; congruence);
    try (destruct Hc as (Hc1 & Hc2 & Hc3); congruence);
    try (destruct Hc as (Hc1 & Hc2 & Hc3); exfalso; apply Hc2; split; congruence).
Qed.

(** X6: for any attribute values the explore/sampling [ValueError] is
    raised, with no variant run, exactly when [sampling] is 'g' and
    [explore] is not [None], or [sampling] is neither 'g' nor 'base' and
    [explore] is one of the five heuristics. *)
Theorem mismatch_raised_exactly_when (self : CUATRO Solver) (r : run_args) :
  (invoked (run self r) = None
   /\ output (run self r) = Raise (ValueError mcd_message))
  <-> ((sampling self = "g" /\ explore self <> None)
       \/ (sampling self <> "g" /\ sampling self <> "base"
           /\ py_in (explore self) heuristics = true)).
Proof.
  unfold run_optimiser, raising, run_variant, py_in, heuristics.
  rewrite rescale_step_frame. simpl.
  unfold str_eq, explore_is, is_None.
  destruct (explore self) as [h |]; repeat case_bool_decide; simpl;
    split; intros Hc;
    try (destruct Hc as [Hc1 Hc2]; congruence);
    try (destruct Hc as [[Hc1 Hc2] | (Hc1 & Hc2 & Hc3)]; congruence);
    try (split; reflexivity);
    try (left; split; congruence);
    try (right; repeat split; congruence).
Qed.

(** X7: a call prints 'tip works' exactly when the TIP variant ran and
    returned; every other call prints nothing. *)
Theorem stdout_is_tip_works_or_nothing (self : CUATRO Solver) (r : run_args) :
  stdout (run self r)
  = if str_eq (sampling self) "base" && explore_is (explore self) "TIP"
       && is_Return (implementation CUATRO_TIP (x0 self) r)
    then ["tip works"] else [].
Proof.
  unfold run_optimiser, raising, run_variant.
  rewrite rescale_step_frame. simpl.
  unfold str_eq, explore_is, is_None.
  destruct (explore self) as [h |]; repeat case_bool_decide; simpl;
    try reflexivity; try congruence;
    repeat match goal with
           | |- context [is_Return ?o] => destruct (is_Return o)
           end; reflexivity.
Qed.

(** X8: every variant class is reached by a constructed instance, and by
    one (sampling, explore) pair only: two instances of any attribute
    values that run the same variant agree on [sampling] and [explore]. *)
Theorem each_variant_has_one_configuration :
  (forall v : variant,
      exists self,
        init (with_modes (fst (configuration_of v)) (snd (configuration_of v))
                false (default_kwargs [])) = Return self
        /\ forall r, invoked (run self r) = Some v)
  /\ (forall (self1 self2 : CUATRO Solver) (r1 r2 : run_args) (v : variant),
        invoked (run self1 r1) = Some v ->
        invoked (run self2 r2) = Some v ->
        sampling self1 = sampling self2 /\ explore self1 = explore self2).
Proof.
  split.
  - intros v. destruct v; (eexists; split; [reflexivity |]);
      intros r; rewrite invoked_select_variant; reflexivity.
  - intros self1 self2 r1 r2 v H1 H2.
    rewrite invoked_select_variant in H1, H2.
    apply select_variant_configuration in H1, H2.
    split; congruence.
Qed.

(** *** The radius over several calls *)

Lemma repeat_calls_frame (n : nat) (self : CUATRO Solver) (r : run_args) :
  repeat_calls ut_rescale_radius implementation n self r
  = set_init_radius
      (init_radius (repeat_calls ut_rescale_radius implementation n self r)) self.
Proof.
  revert self. induction n as [| n IH]; intros self; simpl.
  - destruct self; reflexivity.
  - rewrite IH at 1. rewrite self_after_run.
    rewrite (rescale_step_frame ut_rescale_radius self r) at 2. reflexivity.
Qed.

(** X9: with [rescale_radius] true and non-empty [bounds] the rescaling
    compounds: after [n] calls with the same arguments [init_radius] is the
    initial one rescaled [n] times, and no other attribute has changed. *)
Theorem rescaling_compounds_over_calls
    (n : nat) (self : CUATRO Solver) (r : run_args) (b : Bounds) :
  rescale_radius self = true ->
  bounds r = Some b ->
  b <> [] ->
  repeat_calls ut_rescale_radius implementation n self r
  = set_init_radius
      (Nat.iter n (fun rad => ut_rescale_radius rad b) (init_radius self)) self.
Proof.
  intros Hon Hb Hne. rewrite repeat_calls_frame. f_equal.
  revert self Hon. induction n as [| n IH]; intros self Hon; [reflexivity |].
  cbn [repeat_calls]. rewrite IH.
  - rewrite Nat.iter_succ_r. f_equal.
    rewrite self_after_run. unfold rescale_step. rewrite Hb, Hon.
    destruct b; [contradiction |]. reflexivity.
  - rewrite self_after_run, rescale_step_frame. exact Hon.
Qed.

(** X10: the radius is rescaled before the pair is checked: a call that
    raises the explore/sampling [ValueError] has still overwritten
    [init_radius]. *)
Theorem failing_call_still_rescales
    (self : CUATRO Solver) (r : run_args) (b : Bounds) :
  sampling self = "g" ->
  explore self <> None ->
  rescale_radius self = true ->
  bounds r = Some b ->
  b <> [] ->
  output (run self r) = Raise (ValueError mcd_message)
  /\ init_radius (self_after (run self r)) = ut_rescale_radius (init_radius self) b.
Proof.
  intros Hg He Hon Hb Hne. split.
  - apply (mismatch_raised_exactly_when self r). left. split; assumption.
  - rewrite self_after_run. unfold rescale_step. rewrite Hb, Hon.
    destruct b; [contradiction |]. reflexivity.
Qed.

End FacadeBehaviour.

(** X11: [__init__] consults the solver resolver on 'SCS' and 'MOSEK'
    only: two resolvers that agree on these two names construct the same
    instance or raise the same exception, for all arguments. *)
Theorem resolver_consulted_on_valid_names_only
    {Solver : Type} (resolve1 resolve2 : string -> Solver) (a : kwargs) :
  resolve1 "SCS" = resolve2 "SCS" ->
  resolve1 "MOSEK" = resolve2 "MOSEK" ->
  __init__ resolve1 a = __init__ resolve2 a.
Proof.
  intros Hscs Hmosek. unfold __init__.
  repeat match goal with
         | |- context [if negb (py_in ?x ?l) then _ else _] =>
             destruct (py_in x l) eqn:?; cbn [negb]; [| reflexivity]
         end.
  assert (Hname : resolve1 (arg_solver_to_use a) = resolve2 (arg_solver_to_use a)).
  { match goal with
    | Hin : py_in (arg_solver_to_use a) _ = true |- _ =>
        unfold py_in in Hin; simpl in Hin;
        repeat (apply orb_true_iff in Hin as [Hin | Hin];
                [apply bool_decide_eq_true in Hin; rewrite Hin; assumption |]);
        discriminate
    end. }
  rewrite Hname. reflexivity.
Qed.

(** X12: the rescaled radius is never used by the call that computes it:
    with any two rescaling helpers, a call runs the same variant, prints the
    same and has the same outcome. *)
Theorem rescaling_does_not_reach_the_output
    {Solver : Type} (rescale1 rescale2 : Q -> Bounds -> Q)
    (implementation : variant -> Point -> run_args -> outcome output_dict)
    (self : CUATRO Solver) (r : run_args) :
  output (run_optimiser rescale1 implementation self r)
  = output (run_optimiser rescale2 implementation self r)
  /\ invoked (run_optimiser rescale1 implementation self r)
     = invoked (run_optimiser rescale2 implementation self r)
  /\ stdout (run_optimiser rescale1 implementation self r)
     = stdout (run_optimiser rescale2 implementation self r).
Proof.
  unfold run_optimiser, raising, run_variant.
  rewrite (rescale_step_frame rescale1), (rescale_step_frame rescale2). simpl.
  repeat match goal with
         | |- context [if ?b then _ else _] => destruct b
         end; auto.
Qed.

(** *** The further properties at concrete inputs *)

Lemma first_missing_key_raises_witness :
  __init__ Demo.assign_solver
    (with_automatic_params (Some Demo.partial_tuning) (default_kwargs Demo.start))
  = Raise (KeyError "safety").
Proof.
  apply (proj1 (proj2 (first_missing_key_raises
                         Demo.assign_solver
                         (with_automatic_params (Some Demo.partial_tuning)
                            (default_kwargs Demo.start))
                         Demo.partial_tuning eq_refl eq_refl
                         ltac:(intros Hempty;
                               apply (f_equal (fun m => m !! "exp")) in Hempty;
                               vm_compute in Hempty; discriminate))));
    reflexivity.
Defined.

Lemma construction_outcome_depends_on_checked_arguments_witness :
  match __init__ Demo.assign_solver (default_kwargs Demo.start),
        __init__ Demo.assign_solver Demo.bad_numerics with
  | Return _, Return _ => True
  | Raise e1, Raise e2 => e1 = e2
  | _, _ => False
  end.
Proof.
  apply (construction_outcome_depends_on_checked_arguments
           Demo.assign_solver (default_kwargs Demo.start) Demo.bad_numerics);
    reflexivity.
Defined.

Lemma rescaling_compounds_over_calls_witness :
  exists self,
    __init__ Demo.assign_solver
      (with_modes "g" None true (default_kwargs Demo.start)) = Return self
    /\ repeat_calls Demo.rescale_radius Demo.implementation 3 self
         (Demo.args (Some [(0%Q, 10%Q)]) 20)
       = set_init_radius
           (Nat.iter 3 (fun rad => Demo.rescale_radius rad [(0%Q, 10%Q)])
              (init_radius self)) self.
Proof.
  eexists. split; [reflexivity |].
  apply (rescaling_compounds_over_calls
           Demo.rescale_radius Demo.implementation 3 _
           (Demo.args (Some [(0%Q, 10%Q)]) 20) [(0%Q, 10%Q)]);
    [reflexivity | reflexivity | discriminate].
Defined.

Lemma failing_call_still_rescales_witness :
  exists self,
    __init__ Demo.assign_solver
      (with_modes "g" (Some "TIS") true (default_kwargs Demo.start)) = Return self
    /\ output (run_optimiser Demo.rescale_radius Demo.implementation self
                 (Demo.args (Some [(0%Q, 10%Q)]) 20))
       = Raise (ValueError mcd_message)
    /\ init_radius
         (self_after (run_optimiser Demo.rescale_radius Demo.implementation self
                        (Demo.args (Some [(0%Q, 10%Q)]) 20)))
       = Demo.rescale_radius (init_radius self) [(0%Q, 10%Q)].
Proof.
  eexists. split; [reflexivity |].
  apply (failing_call_still_rescales
           Demo.rescale_radius Demo.implementation _
           (Demo.args (Some [(0%Q, 10%Q)]) 20) [(0%Q, 10%Q)]);
    [reflexivity | discriminate | reflexivity | reflexivity | discriminate].
Defined.

Lemma resolver_consulted_on_valid_names_only_witness :
  Demo.assign_solver "CLARABEL" <> Demo.assign_solver' "CLARABEL"
  /\ __init__ Demo.assign_solver (default_kwargs Demo.start)
     = __init__ Demo.assign_solver' (default_kwargs Demo.start).
Proof.
  split; [discriminate |].
  apply (resolver_consulted_on_valid_names_only
           Demo.assign_solver Demo.assign_solver' (default_kwargs Demo.start));
    reflexivity.
Defined.
